(** * spotifyservice: the OAuth2 login handlers of server.go

    A shallow embedding of [spotifyservice/server.go]: the state token
    generator [genRandState] and the three route handlers registered by
    [routes] for [/auth], [/auth/callback] and [/logout/{provider}].

    The handlers are written in a small state monad over a [World] that
    holds the [http.ResponseWriter] of the request, the chronological
    trace of log lines and provider calls, and the entropy source read by
    [crypto/rand].  The collaborators that live outside the file
    ([oauth2.Config], [spotifyapi.Client], [encoding/json]) are parameters. *)

From Stdlib Require Import String Ascii List ZArith NArith Bool Lia.
From Stdlib Require Import Strings.Byte.
Import ListNotations.

Local Open Scope Z_scope.
Local Open Scope list_scope.
Local Open Scope string_scope.

(** ** encoding/base64: the standard encoding used by [genRandState] *)

Module base64.

(** [const encodeStd] and [const encodeURL], the two alphabets of the package. *)
Definition encodeStd : string :=
  "ABCDEFGHIJKLMNOPQRSTUVWXYZabcdefghijklmnopqrstuvwxyz0123456789+/".
Definition encodeURL : string :=
  "ABCDEFGHIJKLMNOPQRSTUVWXYZabcdefghijklmnopqrstuvwxyz0123456789-_".

(** [StdPadding] *)
Definition StdPadding : ascii := "="%char.

(** [uint(src[i])] *)
Definition uint (b : byte) : Z := Z.of_N (Byte.to_N b).

(** [enc.encode[i]] for the encoding built from [alphabet]. *)
Definition encode (alphabet : string) (i : Z) : ascii :=
  nth (Z.to_nat i) (list_ascii_of_string alphabet) StdPadding.

Section Encoding.
Variable alphabet : string.

Let enc (val : Z) (shift : Z) : ascii :=
  encode alphabet (Z.land (Z.shiftr val shift) 0x3F).

(** [Encoding.Encode] with padding: whole 3-byte groups become four
    characters; a remainder of one or two bytes becomes two or three
    characters followed by padding. *)
Fixpoint Encode (src : list byte) : string :=
  match src with
  | [] => EmptyString
  | [s0] =>
      let val := Z.shiftl (uint s0) 16 in
      String (enc val 18) (String (enc val 12)
        (String StdPadding (String StdPadding EmptyString)))
  | [s0; s1] =>
      let val := Z.lor (Z.shiftl (uint s0) 16) (Z.shiftl (uint s1) 8) in
      String (enc val 18) (String (enc val 12) (String (enc val 6)
        (String StdPadding EmptyString)))
  | s0 :: s1 :: s2 :: rest =>
      let val := Z.lor (Z.lor (Z.shiftl (uint s0) 16) (Z.shiftl (uint s1) 8)) (uint s2) in
      String (enc val 18) (String (enc val 12) (String (enc val 6)
        (String (enc val 0) (Encode rest))))
  end.

End Encoding.

(** [base64.StdEncoding.EncodeToString] *)
Definition StdEncoding_EncodeToString (src : list byte) : string :=
  Encode encodeStd src.

(** [base64.URLEncoding.EncodeToString], the sibling encoding that
    [genRandState] does not use. *)
Definition URLEncoding_EncodeToString (src : list byte) : string :=
  Encode encodeURL src.

End base64.

(** ** net/url: which bytes survive escaping *)

Module url.

Definition between (lo hi : nat) (c : ascii) : bool :=
  (lo <=? nat_of_ascii c)%nat && (nat_of_ascii c <=? hi)%nat.

(** The unreserved characters of RFC 3986, the bytes for which
    [shouldEscape] answers [false] in every mode: letters, digits and
    [-], [_], [.], [~]. *)
Definition unreserved (c : ascii) : bool :=
  between 65 90 c || between 97 122 c || between 48 57 c
  || Ascii.eqb c "-" || Ascii.eqb c "_" || Ascii.eqb c "." || Ascii.eqb c "~".

(** A string is URL-safe when none of its bytes needs escaping. *)
Definition url_safe (s : string) : bool :=
  forallb unreserved (list_ascii_of_string s).

End url.

(** ** Go's [error] values *)

(** The sentinel [http.ErrNoCookie] and every other error value.  The
    test [err == http.ErrNoCookie] compares identities, so an error that
    merely carries the same text is a different value. *)
Inductive error : Type :=
| ErrNoCookie
| errorString (s : string).

(** [err.Error()] *)
Definition Error (err : error) : string :=
  match err with
  | ErrNoCookie => "http: named cookie not present"
  | errorString s => s
  end.

(** [err == http.ErrNoCookie] *)
Definition is_ErrNoCookie (err : error) : bool :=
  match err with
  | ErrNoCookie => true
  | errorString _ => false
  end.

Definition LF : string := String "010"%char EmptyString.
Definition CRLF : string := String "013"%char LF.

(** ** net/http: requests, cookies and the response writer *)

Module http.

Definition StatusOK : Z := 200.
Definition StatusTemporaryRedirect : Z := 307.
Definition StatusBadRequest : Z := 400.
Definition StatusUnauthorized : Z := 401.

(** [http.Cookie], with the attributes the server sets. *)
Record Cookie : Type := mkCookie {
  Name : string;
  Value : string;
  Path : string;
  MaxAge : Z;
  HttpOnly : bool;
  Secure : bool }.

(** [http.Header] without its [Set-Cookie] lines, which the response
    writer keeps as structured cookies. *)
Definition Header : Type := list (string * string).

Fixpoint Header_Get (h : Header) (key : string) : option string :=
  match h with
  | [] => None
  | (k, v) :: h' => if String.eqb k key then Some v else Header_Get h' key
  end.

Definition Header_Del (h : Header) (key : string) : Header :=
  filter (fun kv => negb (String.eqb (fst kv) key)) h.

Definition Header_Set (h : Header) (key value : string) : Header :=
  (key, value) :: Header_Del h key.

Definition Header_has (h : Header) (key : string) : bool :=
  match Header_Get h key with Some _ => true | None => false end.

(** [http.Request] as the handlers use it: the method, the parsed form
    (for the GET routes of this server, the URL query in order of
    appearance), the request headers and the cookie lookup [r.Cookie]. *)
Record Request : Type := mkRequest {
  Method : string;
  Form : list (string * string);
  ReqHeader : Header;
  Request_Cookie : string -> Cookie + error }.

(** [r.FormValue(key)]: the first value for [key], or the empty string. *)
Fixpoint lookupForm (form : list (string * string)) (key : string) : string :=
  match form with
  | [] => EmptyString
  | (k, v) :: form' => if String.eqb k key then v else lookupForm form' key
  end.

Definition FormValue (r : Request) (key : string) : string :=
  lookupForm (Form r) key.

(** [r.Cookie] of a request that carries the cookies [cs]: the first
    cookie of that name, [ErrNoCookie] when there is none. *)
Fixpoint readCookies (cs : list Cookie) (name : string) : Cookie + error :=
  match cs with
  | [] => inr ErrNoCookie
  | c :: cs' => if String.eqb (Name c) name then inl c else readCookies cs' name
  end.

(** What goes over the wire with the status line. *)
Record Sent : Type := mkSent {
  status : Z;
  sentHeader : Header;
  sentCookies : list Cookie }.

(** A piece of response body: text, or the short HTML note
    ([<a href=url>StatusText(code)</a>]) that [http.Redirect] writes. *)
Inductive Chunk : Type :=
| Text (s : string)
| RedirectNote (url : string) (code : Z).

(** [http.ResponseWriter]: the live header map, the status line once it
    has been written, the body so far, and the codes of the
    [WriteHeader] calls that came too late (the server only logs those
    as superfluous). *)
Record ResponseWriter : Type := mkResponseWriter {
  header : Header;
  setCookies : list Cookie;
  wroteHeader : option Sent;
  body : list Chunk;
  superfluous : list Z }.

(** The writer a handler receives: nothing written yet, [h] holding
    whatever the middleware stack has put in the header map. *)
Definition newResponseWriter (h : Header) : ResponseWriter :=
  mkResponseWriter h [] None [] [].

Definition setHeader (w : ResponseWriter) (key value : string) : ResponseWriter :=
  mkResponseWriter (Header_Set (header w) key value) (setCookies w)
                   (wroteHeader w) (body w) (superfluous w).

(** [w.WriteHeader(code)]: the first call fixes status and headers. *)
Definition WriteHeader (w : ResponseWriter) (code : Z) : ResponseWriter :=
  match wroteHeader w with
  | Some _ =>
      mkResponseWriter (header w) (setCookies w) (wroteHeader w) (body w)
                       (superfluous w ++ [code])
  | None =>
      mkResponseWriter (header w) (setCookies w)
                       (Some (mkSent code (header w) (setCookies w)))
                       (body w) (superfluous w)
  end.

(** [w.Write(b)]: an implicit [WriteHeader(StatusOK)] when none came first. *)
Definition Write (w : ResponseWriter) (b : Chunk) : ResponseWriter :=
  let w := match wroteHeader w with
           | Some _ => w
           | None => WriteHeader w StatusOK
           end in
  mkResponseWriter (header w) (setCookies w) (wroteHeader w) (body w ++ [b])
                   (superfluous w).

(** [httpguts.IsTokenRune]: visible ASCII other than the separators. *)
Definition isToken (c : ascii) : bool :=
  let n := nat_of_ascii c in
  (33 <=? n)%nat && (n <=? 126)%nat
  && negb (existsb (Nat.eqb n)
             [34; 40; 41; 44; 47; 58; 59; 60; 61; 62; 63; 64; 91; 92; 93; 123; 125]%nat).

Definition isCookieNameValid (raw : string) : bool :=
  negb (String.eqb raw EmptyString) && forallb isToken (list_ascii_of_string raw).

(** [http.SetCookie(w, cookie)]: adds a [Set-Cookie] line unless the
    cookie name is invalid. *)
Definition SetCookie (w : ResponseWriter) (cookie : Cookie) : ResponseWriter :=
  if isCookieNameValid (Name cookie)
  then mkResponseWriter (header w) (setCookies w ++ [cookie]) (wroteHeader w)
                        (body w) (superfluous w)
  else w.

(** [http.Redirect(w, r, url, code)].  The library first cleans a
    relative target against the request path; the two targets this
    server passes, the path [/] and the absolute ASCII URL of the
    provider's consent page, come out of that unchanged. *)
Definition Redirect (w : ResponseWriter) (r : Request) (url : string) (code : Z)
  : ResponseWriter :=
  let hadCT := Header_has (header w) "Content-Type" in
  let w := setHeader w "Location" url in
  let w := if negb hadCT && (String.eqb (Method r) "GET" || String.eqb (Method r) "HEAD")
           then setHeader w "Content-Type" "text/html; charset=utf-8"
           else w in
  let w := WriteHeader w code in
  if negb hadCT && String.eqb (Method r) "GET"
  then Write w (RedirectNote url code)
  else w.

(** [http.Error(w, error, code)] *)
Definition Error (w : ResponseWriter) (error : string) (code : Z) : ResponseWriter :=
  let w := setHeader w "Content-Type" "text/plain; charset=utf-8" in
  let w := setHeader w "X-Content-Type-Options" "nosniff" in
  let w := WriteHeader w code in
  Write w (Text (error ++ LF)).

(** The status the client sees, if the handler wrote one. *)
Definition statusOf (w : ResponseWriter) : option Z :=
  option_map status (wroteHeader w).

(** The [Location] header the client sees. *)
Definition locationOf (w : ResponseWriter) : option string :=
  match wroteHeader w with
  | Some s => Header_Get (sentHeader s) "Location"
  | None => None
  end.

(** The [Set-Cookie] lines the client sees. *)
Definition cookiesOf (w : ResponseWriter) : list Cookie :=
  match wroteHeader w with
  | Some s => sentCookies s
  | None => []
  end.

End http.

(** ** internal: the cookie constructor *)

Module internal.

(** Modelled from the spec: [internal.NewCookie] is not part of
    [server.go].  The cookie-backed state store issues a cookie whose
    name is the given name and whose value is the given state, scoped to
    the whole site (path [/]), HTTP-only, with a short max-age and the
    secure flag when served over TLS.  The max-age and whether the
    server runs behind TLS are configuration, hence parameters. *)
Definition NewCookie (maxAge : Z) (tls : bool) (name value : string) : http.Cookie :=
  http.mkCookie name value "/" maxAge true tls.

End internal.

(** ** env: the configuration file as [server.go] reads it *)

Module env.

(** One entry of [Oauth2Providers]. *)
Record Oauth2Provider : Type := mkOauth2Provider {
  ClientID : string;
  ClientSecret : string;
  RedirectURL : string }.

(** The [Server] table of the file. *)
Record ServerTable : Type := mkServerTable {
  Port : string }.

(** [env.TomlConfig]; the map [Oauth2Providers] as its key-value pairs. *)
Record TomlConfig : Type := mkTomlConfig {
  Oauth2Providers : list (string * Oauth2Provider);
  Server : ServerTable }.

(** [v, ok := m[key]] *)
Fixpoint index (m : list (string * Oauth2Provider)) (key : string)
  : option Oauth2Provider :=
  match m with
  | [] => None
  | (k, v) :: m' => if String.eqb k key then Some v else index m' key
  end.

End env.

(** ** The server *)

Section Spotifyservice.

(** [oauth2.Token] and the two response projections of [spotifyapi]. *)
Variables Token User SavedTracks : Type.

(** [encoding/json]: [json.Marshal] of the request headers and
    [json.MarshalIndent] of the saved-tracks page. *)
Variable json_Marshal : http.Header -> string + error.
Variable json_MarshalIndent : SavedTracks -> string + error.

(** Configuration of the state cookie (see [internal.NewCookie]). *)
Variable cookieMaxAge : Z.
Variable tls : bool.

(** [spotifyapi.QParams]: three optional query parameters. *)
Record QParams : Type := mkQParams {
  Limit : option Z;
  Offset : option Z;
  Market : option string }.

(** [oauth2.Config] as the handlers use it. *)
Record oauth2_Config : Type := mkConfig {
  AuthCodeURL : string -> string;
  Exchange : string -> Token + error }.

(** [spotifyapi.Client] *)
Record Client : Type := mkClient {
  Config : oauth2_Config;
  GetUserProfileRequest : Token -> User + error;
  GetUserSavedTracks : Token -> QParams -> SavedTracks + error }.

(** [type Server struct]; the configuration, router and [http.Server]
    fields play no part in the handlers. *)
Record Server : Type := mkServer {
  client : Client }.

(** *** The world a handler acts on *)

(** Values handed to the [log] and [fmt] printers. *)
Inductive Val : Type :=
| VStr (s : string)
| VErr (e : error)
| VContext
| VCookie (c : option http.Cookie)
| VHeader (h : http.Header) (cs : list http.Cookie)
| VQuery (q : list (string * string))
| VToken (t : Token)
| VUser (u : User).

Inductive Printer : Type :=
| LogPrintln
| LogPrintf (format : string)
| LogFatalf (format : string)
| FmtPrintln
| FmtPrint.

(** Requests the server makes to the provider. *)
Inductive Call : Type :=
| CallExchange (code : string)
| CallGetUserProfile (token : Token)
| CallGetUserSavedTracks (token : Token) (params : QParams).

Inductive Event : Type :=
| Printed (p : Printer) (args : list Val)
| Called (c : Call).

(** [crypto/rand]: the outcome of the k-th read of n bytes. *)
Definition Entropy : Type := nat -> nat -> list byte + error.

Record World : Type := mkWorld {
  w : http.ResponseWriter;
  trace : list Event;
  entropy : Entropy;
  reads : nat }.

(** A computation returns to its caller or ends the process
    ([log.Fatalf] calls [os.Exit(1)]). *)
Inductive Outcome (A : Type) : Type :=
| Returned (a : A) (W : World)
| Exited (W : World).
Arguments Returned {A} a W.
Arguments Exited {A} W.

Definition M (A : Type) : Type := World -> Outcome A.

Definition ret {A : Type} (a : A) : M A := fun W => Returned a W.

Definition bind {A B : Type} (m : M A) (k : A -> M B) : M B :=
  fun W => match m W with
           | Returned a W' => k a W'
           | Exited W' => Exited W'
           end.

Notation "x <- m ;; k" := (bind m (fun x => k))
  (at level 61, m at next level, right associativity).
Notation "m ;; k" := (bind m (fun _ => k))
  (at level 61, right associativity).

Definition emit (e : Event) : M unit :=
  fun W => Returned tt (mkWorld (w W) (trace W ++ [e]) (entropy W) (reads W)).

Definition onWriter (f : http.ResponseWriter -> http.ResponseWriter) : M unit :=
  fun W => Returned tt (mkWorld (f (w W)) (trace W) (entropy W) (reads W)).

Definition os_Exit {A : Type} : M A := fun W => Exited W.

Definition log_Println (args : list Val) : M unit := emit (Printed LogPrintln args).
Definition log_Printf (format : string) (args : list Val) : M unit :=
  emit (Printed (LogPrintf format) args).
Definition log_Fatalf {A : Type} (format : string) (args : list Val) : M A :=
  emit (Printed (LogFatalf format) args) ;; os_Exit.
Definition fmt_Println (args : list Val) : M unit := emit (Printed FmtPrintln args).
Definition fmt_Print (args : list Val) : M unit := emit (Printed FmtPrint args).

Definition http_Redirect (r : http.Request) (url : string) (code : Z) : M unit :=
  onWriter (fun w => http.Redirect w r url code).
Definition http_Error (error : string) (code : Z) : M unit :=
  onWriter (fun w => http.Error w error code).
Definition http_SetCookie (cookie : http.Cookie) : M unit :=
  onWriter (fun w => http.SetCookie w cookie).
Definition w_Header_Set (key value : string) : M unit :=
  onWriter (fun w => http.setHeader w key value).
Definition w_WriteHeader (code : Z) : M unit :=
  onWriter (fun w => http.WriteHeader w code).
Definition w_Header : M Val :=
  fun W => Returned (VHeader (http.header (w W)) (http.setCookies (w W))) W.

(** [make([]byte, n)] *)
Definition make (n : nat) : list byte := repeat x00 n.

(** Copying [data] into the buffer [b], as a read does. *)
Definition fill (b data : list byte) : list byte :=
  firstn (length b) (data ++ skipn (length data) b).

(** [rand.Read(b)]: fills [b] from the entropy source, or fails. *)
Definition rand_Read (b : list byte) : M (list byte * option error) :=
  fun W =>
    let W' := mkWorld (w W) (trace W) (entropy W) (S (reads W)) in
    match entropy W (reads W) (length b) with
    | inl data => Returned (fill b data, None) W'
    | inr err => Returned (b, Some err) W'
    end.

(** The three provider operations: each leaves its call in the trace. *)
Definition Config_Exchange (s : Server) (code : string) : M (Token + error) :=
  emit (Called (CallExchange code)) ;;
  ret (Exchange (Config (client s)) code).

Definition client_GetUserProfileRequest (s : Server) (token : Token)
  : M (User + error) :=
  emit (Called (CallGetUserProfile token)) ;;
  ret (GetUserProfileRequest (client s) token).

Definition client_GetUserSavedTracks (s : Server) (token : Token) (params : QParams)
  : M (SavedTracks + error) :=
  emit (Called (CallGetUserSavedTracks token params)) ;;
  ret (GetUserSavedTracks (client s) token params).

(** *** server.go *)

Definition stateCookieName : string := "oauthState".

(** [internal.NewCookie] under this server's cookie configuration. *)
Definition NewCookie (name value : string) : http.Cookie :=
  internal.NewCookie cookieMaxAge tls name value.

(** [func genRandState() string] *)
Definition genRandState : M string :=
  log_Println [VStr "generating rand bytes"] ;;
  let bytes := make 32 in
  res <- rand_Read bytes ;;
  match res with
  | (_, Some err) => log_Fatalf "failed to read rand fn %v" [VErr err]
  | (bytes, None) =>
      let state := base64.StdEncoding_EncodeToString bytes in
      ret state
  end.

(** The handler [routes] registers for [GET /auth]. *)
Definition handleAuth (s : Server) (r : http.Request) : M unit :=
  log_Println [VContext] ;;
  log_Println [VStr "checking if user already has a cookie stored in their browser"] ;;
  let cookie := http.Request_Cookie r stateCookieName in
  match cookie with
  | inr err => log_Printf "we got no cookie in request, %s" [VErr err]
  | inl _ => ret tt
  end ;;
  fmt_Println [VCookie match cookie with inl c => Some c | inr _ => None end] ;;
  localState <- genRandState ;;
  http_SetCookie (NewCookie stateCookieName localState) ;;
  fmt_Println [VStr localState] ;;
  h <- w_Header ;;
  fmt_Println [h] ;;
  let authURL := AuthCodeURL (Config (client s)) localState in
  http_Redirect r authURL http.StatusTemporaryRedirect.

(** The handler [routes] registers for [GET /auth/callback]. *)
Definition handleAuthCallback (s : Server) (r : http.Request) : M unit :=
  if negb (String.eqb (http.FormValue r "error") EmptyString) then
    log_Printf "user authorization failed. Reason=%s" [VStr (http.FormValue r "error")] ;;
    http_Redirect r "/" http.StatusTemporaryRedirect
  else
    match http.Request_Cookie r stateCookieName with
    | inr err =>
        (if is_ErrNoCookie err then
           log_Println [VStr "Error finding cookie: "; VStr (Error err)] ;;
           http_Redirect r "/" http.StatusUnauthorized
         else ret tt) ;;
        http_Error (Error err) http.StatusBadRequest
    | inl oauthStateCookie =>
        log_Printf ("%s=%s" ++ CRLF)
          [VStr (http.Name oauthStateCookie); VStr (http.Value oauthStateCookie)] ;;
        if negb (String.eqb (http.FormValue r "state") (http.Value oauthStateCookie)) then
          log_Println [VStr "invalid oauth2 spotify state. state_mismatch err"] ;;
          http_Redirect r "/" http.StatusUnauthorized
        else
          let authCode := http.FormValue r "code" in
          log_Printf "code=%s" [VStr authCode] ;;
          token <- Config_Exchange s authCode ;;
          match token with
          | inr err =>
              log_Printf "error converting auth code into token; %s" [VStr (Error err)] ;;
              http_Error (Error err) http.StatusBadRequest
          | inl token =>
              log_Println [VToken token] ;;
              log_Println [VStr "query params?"] ;;
              let queryParams := http.Form r in
              log_Println [VQuery queryParams] ;;
              match json_Marshal (http.ReqHeader r) with
              | inr _ => log_Println [VStr "Could not Marshal Req Headers"]
              | inl reqHeadersBytes => log_Println [VStr reqHeadersBytes]
              end ;;
              user <- client_GetUserProfileRequest s token ;;
              match user with
              | inr err => http_Error (Error err) http.StatusBadRequest
              | inl user =>
                  log_Println [VStr "getting user"] ;;
                  log_Printf ("%+v" ++ LF) [VUser user] ;;
                  let limit := 50 in
                  let offset := 0 in
                  let market := "us" in
                  let params := mkQParams (Some limit) (Some offset) (Some market) in
                  tracks <- client_GetUserSavedTracks s token params ;;
                  match tracks with
                  | inr err => http_Error (Error err) http.StatusBadRequest
                  | inl tracks =>
                      log_Println [VStr "getting user tracks"] ;;
                      match json_MarshalIndent tracks with
                      | inr err => fmt_Println [VErr err] ;; fmt_Print [VStr EmptyString]
                      | inl b => fmt_Print [VStr b]
                      end
                  end
              end
          end
    end.

(** The handler [routes] registers for [GET /logout/{provider}]. *)
Definition handleLogout (r : http.Request) : M unit :=
  w_Header_Set "Location" "/" ;;
  w_WriteHeader http.StatusTemporaryRedirect.

(** *** Running a handler and reading off what it did *)

(** A request arrives: a fresh response writer whose header map holds
    [h], an empty trace, and the entropy source [e]. *)
Definition start (h : http.Header) (e : Entropy) : World :=
  mkWorld (http.newResponseWriter h) [] e 0.

Definition worldOf {A : Type} (o : Outcome A) : World :=
  match o with
  | Returned _ W => W
  | Exited W => W
  end.

Definition resultOf {A : Type} (o : Outcome A) : option A :=
  match o with
  | Returned a _ => Some a
  | Exited _ => None
  end.

Definition returned {A : Type} (o : Outcome A) : bool :=
  match o with
  | Returned _ _ => true
  | Exited _ => false
  end.

(** The provider calls of a trace, in the order they were made. *)
Fixpoint callsOf (tr : list Event) : list Call :=
  match tr with
  | [] => []
  | Called c :: tr' => c :: callsOf tr'
  | Printed _ _ :: tr' => callsOf tr'
  end.

(** The query the callback sends with the saved-tracks request. *)
Definition savedTracksParams : QParams :=
  mkQParams (Some 50) (Some 0) (Some "us").

(** *** Sample requests and collaborators *)

(** A GET request with the given query and cookies. *)
Definition get (form : list (string * string)) (cookies : list http.Cookie)
  : http.Request :=
  http.mkRequest "GET" form [] (http.readCookies cookies).

(** A GET request whose cookie header cannot be read. *)
Definition getBadCookies (form : list (string * string)) (err : error) : http.Request :=
  http.mkRequest "GET" form [] (fun _ => inr err).

Definition oauthStateABC123 : http.Cookie :=
  http.mkCookie "oauthState" "ABC123" "/" 300 true false.

(** A provider whose three operations answer as given. *)
Definition provider (token : Token + error) (user : User + error)
  (tracks : SavedTracks + error) : Server :=
  mkServer (mkClient
    (mkConfig (fun state => "https://accounts.spotify.com/authorize?state=" ++ state)
              (fun _ => token))
    (fun _ => user)
    (fun _ _ => tracks)).

(** An entropy source that delivers the byte [b] forever, and one that
    is unavailable. *)
Definition constantEntropy (b : byte) : Entropy := fun _ n => inl (repeat b n).
Definition noEntropy : Entropy := fun _ _ => inr (errorString "entropy unavailable").

(** *** Startup: [NewServer], [Start], [Shutdown] *)

(** [env.LoadTOMLFile] and [spotifyapi.NewClient]. *)
Variable env_LoadTOMLFile : string -> env.TomlConfig + error.
Variable spotifyapi_NewClient : string -> string -> string -> Client.

(** What [routes] registers on the router, in order: the middleware
    stack, the GET routes by pattern and handler, and the static file
    server mounted by [FileServer]. *)
Inductive Handler : Type :=
| indexHandler
| handlePing
| handleHome
| authHandler
| authCallbackHandler
| logoutHandler.

Inductive Registration : Type :=
| Use (middlewares : list string)
| Get (pattern : string) (h : Handler)
| FileServer (path : string).

Definition Mux : Type := list Registration.

Definition time_Second : Z := 1000000000.

(** The fields of [http.Server] that [Start] sets. *)
Record http_Server : Type := mkHttpServer {
  Addr : string;
  ServerHandler : option Mux;
  ReadTimeout : Z;
  WriteTimeout : Z }.

(** The error [ListenAndServe] returns, which is never nil:
    [http.ErrServerClosed] after a shutdown, anything else otherwise. *)
Inductive ServeError : Type :=
| ErrServerClosed
| otherServeError (err : error).

Variable ListenAndServe : http_Server -> ServeError.

(** [type Server struct] with all four pointer fields, [None] for nil. *)
Record ServerStruct : Type := mkServerStruct {
  s_cfg : option env.TomlConfig;
  s_client : option Client;
  s_router : option Mux;
  s_httpServer : option http_Server }.

(** [&Server{}] *)
Definition zeroServer : ServerStruct := mkServerStruct None None None None.

(** The log lines of startup. *)
Inductive BootLine : Type :=
| Fatal (msg : string)
| Fatalf (format : string) (err : ServeError)
| Printf (format : string) (arg : string)
| Println (msg : string).

(** Startup code returns, exits through [log.Fatal] or panics. *)
Inductive Boot (A : Type) : Type :=
| Up (a : A) (log : list BootLine)
| FatalExit (log : list BootLine)
| Panic (msg : string) (log : list BootLine).
Arguments Up {A} a log.
Arguments FatalExit {A} log.
Arguments Panic {A} msg log.

Definition B (A : Type) : Type := list BootLine -> Boot A.

Definition retB {A : Type} (a : A) : B A := fun log => Up a log.

Definition bindB {A C : Type} (m : B A) (k : A -> B C) : B C :=
  fun log => match m log with
             | Up a log' => k a log'
             | FatalExit log' => FatalExit log'
             | Panic msg log' => Panic msg log'
             end.

Definition boot_log (l : BootLine) : B unit := fun log => Up tt (log ++ [l]).
Definition boot_fatal {A : Type} (l : BootLine) : B A := fun log => FatalExit (log ++ [l]).
Definition panic {A : Type} (msg : string) : B A := fun log => Panic msg log.

Definition nilDereference : string :=
  "runtime error: invalid memory address or nil pointer dereference".

(** [func (s *Server) initCfg(fileName string)] *)
Definition initCfg (s : ServerStruct) (fileName : string) : B ServerStruct :=
  match env_LoadTOMLFile fileName with
  | inr _ => boot_fatal (Fatal "Error loading .toml file into struct config")
  | inl cfg =>
      retB (mkServerStruct (Some cfg) (s_client s) (s_router s) (s_httpServer s))
  end.

(** [func (s *Server) initClient()] *)
Definition initClient (s : ServerStruct) : B ServerStruct :=
  match s_cfg s with
  | None => panic nilDereference
  | Some c =>
      match env.index (env.Oauth2Providers c) "spotify" with
      | None => panic "Spotify env properties not found in config"
      | Some cfg =>
          retB (mkServerStruct (s_cfg s)
                  (Some (spotifyapi_NewClient (env.ClientID cfg) (env.ClientSecret cfg)
                                              (env.RedirectURL cfg)))
                  (s_router s) (s_httpServer s))
      end
  end.

(** [func (s *Server) routes()]: a new router with the registrations of
    the function, in the order it makes them. *)
Definition routes (s : ServerStruct) : B ServerStruct :=
  let router : Mux :=
    [Use ["Logger"; "StripSlashes"; "RealIP"; "Recoverer"; "cors.Handler"];
     Get "/" indexHandler;
     Get "/ping" handlePing;
     Get "/" handleHome;
     FileServer "/templates";
     Get "/auth" authHandler;
     Get "/auth/callback" authCallbackHandler;
     Get "/logout/{provider}" logoutHandler] in
  retB (mkServerStruct (s_cfg s) (s_client s) (Some router) (s_httpServer s)).

(** [func NewServer(fileName string) *Server] *)
Definition NewServer (fileName : string) : B ServerStruct :=
  let s := zeroServer in
  bindB (initCfg s fileName) (fun s =>
  bindB (initClient s) (fun s =>
  bindB (routes s) (fun s =>
  retB s))).

(** [func (s *Server) Start()] *)
Definition Start (s : ServerStruct) : B ServerStruct :=
  match s_cfg s with
  | None => panic nilDereference
  | Some cfg =>
      let httpServer :=
        mkHttpServer (":" ++ env.Port (env.Server cfg)) (s_router s)
                     (10 * time_Second) (10 * time_Second) in
      let s := mkServerStruct (s_cfg s) (s_client s) (s_router s) (Some httpServer) in
      bindB (boot_log (Printf ("server listening on %s" ++ LF) (env.Port (env.Server cfg))))
        (fun _ =>
      match ListenAndServe httpServer with
      | ErrServerClosed => bindB (boot_log (Println "Server closed!")) (fun _ => retB s)
      | err => boot_fatal (Fatalf "ListenAndServe err: %s" err)
      end)
  end.

(** [func (s *Server) Shutdown()] has an empty body. *)
Definition Shutdown (s : ServerStruct) : B ServerStruct := retB s.

(** The server the handlers run with, once the client is in place. *)
Definition serving (s : ServerStruct) : option Server :=
  option_map mkServer (s_client s).

(** ** Properties *)

(** *** Lists taken three elements at a time *)

Lemma list_ind3 (A : Type) (P : list A -> Prop) :
  P [] ->
  (forall a, P [a]) ->
  (forall a b, P [a; b]) ->
  (forall a b c l, P l -> P (a :: b :: c :: l)) ->
  forall l, P l.
Proof.
  intros H0 H1 H2 H3 l.
  assert (H : P l /\ (forall a, P (a :: l)) /\ (forall a b, P (a :: b :: l))).
  { induction l as [|x l [IH0 [IH1 IH2]]].
    - auto.
    - repeat split; auto. }
  apply H.
Qed.

(** *** base64 *)

Lemma sextet_range (x : Z) : 0 <= Z.land x 0x3F < 64.
Proof.
  change 0x3F with (Z.ones 6).
  rewrite Z.land_ones by lia.
  change (2 ^ 6) with 64.
  apply Z.mod_pos_bound; lia.
Qed.

Lemma encode_in_alphabet (alphabet : string) (x : Z) :
  String.length alphabet = 64%nat ->
  In (base64.encode alphabet (Z.land x 0x3F)) (list_ascii_of_string alphabet).
Proof.
  intros Hlen. unfold base64.encode.
  apply nth_In.
  assert (Hl : length (list_ascii_of_string alphabet) = String.length alphabet).
  { clear Hlen. induction alphabet as [|c s IH]; simpl; congruence. }
  rewrite Hl, Hlen.
  pose proof (sextet_range x). lia.
Qed.

(** Every character of an encoding is a character of its alphabet or
    the padding character. *)
Lemma Encode_chars (alphabet : string) (src : list byte) (c : ascii) :
  String.length alphabet = 64%nat ->
  In c (list_ascii_of_string (base64.Encode alphabet src)) ->
  In c (list_ascii_of_string alphabet) \/ c = base64.StdPadding.
Proof.
  intros Hlen. revert c.
  induction src as [|s0|s0 s1|s0 s1 s2 rest IH] using list_ind3;
    intros c Hin; cbn [base64.Encode list_ascii_of_string In] in Hin.
  all: repeat match goal with
              | H : _ \/ _ |- _ => destruct H as [H|H]
              | H : False |- _ => destruct H
              end.
  all: try (subst c;
            first [ left; apply encode_in_alphabet; exact Hlen
                  | right; reflexivity ]).
  auto.
Qed.

(** Padded encodings are four characters for every three bytes begun. *)
Lemma Encode_length (alphabet : string) (src : list byte) :
  String.length (base64.Encode alphabet src) = (4 * ((length src + 2) / 3))%nat.
Proof.
  induction src as [|s0|s0 s1|s0 s1 s2 rest IH] using list_ind3;
    cbn [base64.Encode String.length length].
  1-3: reflexivity.
  rewrite IH.
  replace (S (S (S (length rest))) + 2)%nat with (length rest + 2 + 1 * 3)%nat by lia.
  rewrite Nat.div_add by lia. lia.
Qed.

(** A source of 3n+2 bytes is encoded with exactly one padding
    character, at the very end. *)
Lemma Encode_padded (alphabet : string) (n : nat) (src : list byte) :
  length src = (3 * n + 2)%nat ->
  exists body, base64.Encode alphabet src = body ++ "=".
Proof.
  revert src. induction n as [|n IH]; intros src Hlen.
  - destruct src as [|s0 [|s1 [|s2 rest]]]; try discriminate.
    eexists (String _ (String _ (String _ EmptyString))). reflexivity.
  - destruct src as [|s0 [|s1 [|s2 rest]]]; simpl in Hlen; try lia.
    destruct (IH rest) as [body Hbody]; [lia|].
    eexists (String _ (String _ (String _ (String _ body)))).
    cbn [base64.Encode]. rewrite Hbody. reflexivity.
Qed.

Lemma url_safe_app (s t : string) :
  url.url_safe (s ++ t) = url.url_safe s && url.url_safe t.
Proof.
  unfold url.url_safe.
  induction s as [|c s IH]; simpl; [reflexivity|].
  rewrite IH. apply andb_assoc.
Qed.

(** The test vectors of RFC 4648, section 10 (the bytes of [f], [fo],
    [foo], [foob], [fooba], [foobar]). *)
Example StdEncoding_rfc4648_vectors :
  base64.StdEncoding_EncodeToString [] = EmptyString /\
  base64.StdEncoding_EncodeToString [x66] = "Zg==" /\
  base64.StdEncoding_EncodeToString [x66; x6f] = "Zm8=" /\
  base64.StdEncoding_EncodeToString [x66; x6f; x6f] = "Zm9v" /\
  base64.StdEncoding_EncodeToString [x66; x6f; x6f; x62] = "Zm9vYg==" /\
  base64.StdEncoding_EncodeToString [x66; x6f; x6f; x62; x61] = "Zm9vYmE=" /\
  base64.StdEncoding_EncodeToString [x66; x6f; x6f; x62; x61; x72] = "Zm9vYmFy".
Proof. repeat apply conj; reflexivity. Qed.

(** The URL alphabet needs no escaping; of the standard alphabet
    exactly [+] and [/] do. *)
Lemma alphabets_and_escaping :
  url.url_safe base64.encodeURL = true /\
  filter (fun c => negb (url.unreserved c)) (list_ascii_of_string base64.encodeStd)
  = ["+"%char; "/"%char].
Proof. split; reflexivity. Qed.

(** The padding character needs escaping, so no padded encoding of
    3n+2 bytes is URL-safe, whichever alphabet it uses. *)
Lemma Encode_padded_not_url_safe (alphabet : string) (n : nat) (src : list byte) :
  length src = (3 * n + 2)%nat ->
  url.url_safe (base64.Encode alphabet src) = false.
Proof.
  intros Hlen. destruct (Encode_padded alphabet n src Hlen) as [body ->].
  rewrite url_safe_app. apply andb_false_r.
Qed.


Lemma fill_length (b data : list byte) : length (fill b data) = length b.
Proof.
  unfold fill. rewrite length_firstn, length_app, length_skipn. lia.
Qed.

Lemma genRandState_run (W : World) :
  genRandState W =
  let tr := (trace W ++ [Printed LogPrintln [VStr "generating rand bytes"]])%list in
  match entropy W (reads W) 32%nat with
  | inl data =>
      Returned (base64.StdEncoding_EncodeToString (fill (make 32) data))
               (mkWorld (w W) tr (entropy W) (S (reads W)))
  | inr err =>
      Exited (mkWorld (w W)
                (tr ++ [Printed (LogFatalf "failed to read rand fn %v") [VErr err]])
                (entropy W) (S (reads W)))
  end.
Proof.
  unfold genRandState, bind, log_Println, emit, rand_Read, log_Fatalf, bind, emit, os_Exit, ret.
  cbn [w trace entropy reads].
  change (length (make 32)) with 32%nat.
  destruct (entropy W (reads W) 32%nat); reflexivity.
Qed.

Ltac run :=
  cbv beta iota zeta delta
    [bind ret emit onWriter os_Exit log_Println log_Printf log_Fatalf
     fmt_Println fmt_Print http_Redirect http_Error http_SetCookie
     w_Header_Set w_WriteHeader w_Header Config_Exchange
     client_GetUserProfileRequest client_GetUserSavedTracks
     worldOf returned w trace entropy reads start].

Lemma Redirect_fresh (rw : http.ResponseWriter) (r : http.Request) (url : string) (code : Z) :
  http.wroteHeader rw = None ->
  http.statusOf (http.Redirect rw r url code) = Some code /\
  http.locationOf (http.Redirect rw r url code) = Some url /\
  http.cookiesOf (http.Redirect rw r url code) = http.setCookies rw /\
  http.setCookies (http.Redirect rw r url code) = http.setCookies rw /\
  http.superfluous (http.Redirect rw r url code) = http.superfluous rw.
Proof.
  destruct rw as [h cs wh b sf]. cbn [http.wroteHeader]. intros ->.
  unfold http.Redirect, http.statusOf, http.locationOf, http.cookiesOf.
  cbn [http.header].
  destruct (http.Header_has h "Content-Type");
    destruct (String.eqb (http.Method r) "GET");
    destruct (String.eqb (http.Method r) "HEAD");
    cbn; auto.
Qed.

Lemma Error_fresh (rw : http.ResponseWriter) (msg : string) (code : Z) :
  http.wroteHeader rw = None ->
  http.statusOf (http.Error rw msg code) = Some code /\
  http.body (http.Error rw msg code) = (http.body rw ++ [http.Text (msg ++ LF)])%list /\
  http.setCookies (http.Error rw msg code) = http.setCookies rw /\
  http.superfluous (http.Error rw msg code) = http.superfluous rw.
Proof.
  destruct rw as [h cs wh b sf]. cbn [http.wroteHeader]. intros ->.
  cbn. auto.
Qed.

Lemma Error_late (rw : http.ResponseWriter) (sent : http.Sent) (msg : string) (code : Z) :
  http.wroteHeader rw = Some sent ->
  http.wroteHeader (http.Error rw msg code) = Some sent /\
  http.body (http.Error rw msg code) = (http.body rw ++ [http.Text (msg ++ LF)])%list /\
  http.superfluous (http.Error rw msg code) = (http.superfluous rw ++ [code])%list.
Proof.
  destruct rw as [h cs wh b sf]. cbn [http.wroteHeader]. intros ->.
  cbn. auto.
Qed.

Lemma eqb_empty_false (s : string) : s <> EmptyString -> String.eqb s EmptyString = false.
Proof. intros H. apply String.eqb_neq. exact H. Qed.

(** After a redirect on a fresh writer the status line is out. *)
Lemma Redirect_sent (rw : http.ResponseWriter) (r : http.Request) (url : string) (code : Z) :
  http.wroteHeader rw = None ->
  exists sent, http.wroteHeader (http.Redirect rw r url code) = Some sent /\
               http.status sent = code.
Proof.
  destruct rw as [h cs wh b sf]. cbn [http.wroteHeader]. intros ->.
  unfold http.Redirect. cbn [http.header].
  destruct (http.Header_has h "Content-Type");
    destruct (String.eqb (http.Method r) "GET");
    destruct (String.eqb (http.Method r) "HEAD");
    cbn; eauto.
Qed.

Lemma Redirect_body (rw : http.ResponseWriter) (r : http.Request) (url : string) (code : Z) :
  http.Method r = "GET" ->
  http.Header_has (http.header rw) "Content-Type" = false ->
  http.body (http.Redirect rw r url code) = (http.body rw ++ [http.RedirectNote url code])%list.
Proof.
  intros Hm Hct. unfold http.Redirect. rewrite Hm, Hct.
  destruct rw as [h cs [sent|] b sf]; reflexivity.
Qed.

Ltac writer_facts :=
  repeat match goal with
         | |- _ /\ _ => split
         | |- true = true => reflexivity
         | |- http.statusOf (http.Redirect (http.newResponseWriter ?h) ?r ?u ?c) = _ =>
             apply (Redirect_fresh (http.newResponseWriter h) r u c eq_refl)
         | |- http.locationOf (http.Redirect (http.newResponseWriter ?h) ?r ?u ?c) = _ =>
             apply (Redirect_fresh (http.newResponseWriter h) r u c eq_refl)
         | |- http.statusOf (http.Error (http.newResponseWriter ?h) ?m ?c) = _ =>
             apply (Error_fresh (http.newResponseWriter h) m c eq_refl)
         | |- http.body (http.Error (http.newResponseWriter ?h) ?m ?c) = _ =>
             apply (Error_fresh (http.newResponseWriter h) m c eq_refl)
         | |- _ = _ => reflexivity
         end.

(** *** GET /auth/callback *)


(** C1, as amended.  The state comparison is an exact, case-sensitive
    string comparison.  A callback whose [state] parameter differs from
    the value of the state cookie never makes a provider call; and when
    it carries no provider [error] parameter the handler logs the
    mismatch and answers with [http.Redirect] to [/] under status 401.
    (With an [error] parameter the provider-denied branch runs first.) *)
Theorem callback_state_mismatch
  (s : Server) (r : http.Request) (h : http.Header) (e : Entropy) (c : http.Cookie) :
  http.Request_Cookie r stateCookieName = inl c ->
  http.FormValue r "state" <> http.Value c ->
  let o := handleAuthCallback s r (start h e) in
  callsOf (trace (worldOf o)) = [] /\
  (http.FormValue r "error" = EmptyString ->
   returned o = true /\
   trace (worldOf o) =
     [Printed (LogPrintf ("%s=%s" ++ CRLF)) [VStr (http.Name c); VStr (http.Value c)];
      Printed LogPrintln [VStr "invalid oauth2 spotify state. state_mismatch err"]] /\
   w (worldOf o) =
     http.Redirect (http.newResponseWriter h) r "/" http.StatusUnauthorized /\
   http.statusOf (w (worldOf o)) = Some 401 /\
   http.locationOf (w (worldOf o)) = Some "/").
Proof.
  intros Hcookie Hstate o. subst o. unfold handleAuthCallback.
  apply String.eqb_neq in Hstate.
  destruct (String.eqb (http.FormValue r "error") EmptyString) eqn:Herr; cbn [negb].
  - rewrite Hcookie. run. rewrite Hstate. cbn [negb]. run.
    split; [reflexivity|]. intros _. writer_facts.
  - run. split; [reflexivity|].
    intros Hempty. rewrite Hempty in Herr. discriminate Herr.
Qed.

(** An error written after a redirect changes neither status nor
    headers: its [WriteHeader] is superfluous, its text joins the body. *)
Lemma Error_after_Redirect
  (rw : http.ResponseWriter) (r : http.Request) (url msg : string) (code code' : Z) :
  http.wroteHeader rw = None ->
  let rw' := http.Error (http.Redirect rw r url code) msg code' in
  http.statusOf rw' = Some code /\
  http.locationOf rw' = Some url /\
  http.cookiesOf rw' = http.setCookies rw /\
  http.superfluous rw' = (http.superfluous rw ++ [code'])%list /\
  http.body rw' = (http.body (http.Redirect rw r url code) ++ [http.Text (msg ++ LF)])%list.
Proof.
  intros Hfresh rw'. subst rw'.
  destruct (Redirect_sent rw r url code Hfresh) as [sent [Hsent _]].
  destruct (Redirect_fresh rw r url code Hfresh) as (Hst & Hloc & Hck & _ & Hsup).
  destruct (Error_late _ sent msg code' Hsent) as (Hwrote & Hbody & Hsuper).
  unfold http.statusOf, http.locationOf, http.cookiesOf in *.
  rewrite Hwrote, Hbody, Hsuper, Hsup. rewrite Hsent in Hst, Hloc, Hck.
  auto.
Qed.

(** C3, as amended.  For a callback without provider [error] parameter
    whose state cookie cannot be read, whatever its [state] parameter:
    no provider call is made; when the fault is [ErrNoCookie] the client
    sees status 401 with [Location: /]; any other fault yields only the
    bad-request response carrying the fault's text, with no redirect. *)
Theorem callback_cookie_read_fault
  (s : Server) (r : http.Request) (h : http.Header) (e : Entropy) (err : error) :
  http.FormValue r "error" = EmptyString ->
  http.Request_Cookie r stateCookieName = inr err ->
  let o := handleAuthCallback s r (start h e) in
  returned o = true /\
  callsOf (trace (worldOf o)) = [] /\
  (err = ErrNoCookie ->
   http.statusOf (w (worldOf o)) = Some 401 /\
   http.locationOf (w (worldOf o)) = Some "/") /\
  (err <> ErrNoCookie ->
   trace (worldOf o) = [] /\
   w (worldOf o) =
     http.Error (http.newResponseWriter h) (Error err) http.StatusBadRequest /\
   http.statusOf (w (worldOf o)) = Some 400 /\
   http.body (w (worldOf o)) = [http.Text (Error err ++ LF)]).
Proof.
  intros Herr Hcookie o. subst o. unfold handleAuthCallback.
  rewrite Herr, Hcookie. cbn [String.eqb negb].
  destruct err as [|msg]; cbn [is_ErrNoCookie]; run.
  - split; [reflexivity|]. split; [reflexivity|]. split.
    + intros _.
      pose proof (Error_after_Redirect (http.newResponseWriter h) r "/"
                    (Error ErrNoCookie) http.StatusUnauthorized
                    http.StatusBadRequest eq_refl) as (Hst & Hloc & _).
      split; assumption.
    + intros Hne. congruence.
  - split; [reflexivity|]. split; [reflexivity|]. split.
    + intros Heq. discriminate Heq.
    + intros _. writer_facts.
Qed.

(** C9.  When the cookie read fails with [ErrNoCookie] the branch that
    issues the unauthorized redirect does not end the handler: the
    response writer receives [http.Redirect] (status 401) and then, for
    the same request, [http.Error] with status 400.  The second status
    is superfluous, the error text is appended to the redirect's body. *)
Theorem callback_missing_cookie_falls_through
  (s : Server) (r : http.Request) (h : http.Header) (e : Entropy) :
  http.FormValue r "error" = EmptyString ->
  http.Request_Cookie r stateCookieName = inr ErrNoCookie ->
  let o := handleAuthCallback s r (start h e) in
  let redirected :=
    http.Redirect (http.newResponseWriter h) r "/" http.StatusUnauthorized in
  returned o = true /\
  w (worldOf o) =
    http.Error redirected "http: named cookie not present" http.StatusBadRequest /\
  http.statusOf (w (worldOf o)) = Some 401 /\
  http.locationOf (w (worldOf o)) = Some "/" /\
  http.superfluous (w (worldOf o)) = [400] /\
  http.body (w (worldOf o)) =
    (http.body redirected ++ [http.Text ("http: named cookie not present" ++ LF)])%list /\
  (http.Method r = "GET" -> http.Header_has h "Content-Type" = false ->
   http.body (w (worldOf o)) =
     [http.RedirectNote "/" 401;
      http.Text ("http: named cookie not present" ++ LF)]).
Proof.
  intros Herr Hcookie o redirected. subst o redirected. unfold handleAuthCallback.
  rewrite Herr, Hcookie. cbn [String.eqb negb is_ErrNoCookie]. run.
  pose proof (Error_after_Redirect (http.newResponseWriter h) r "/"
                (Error ErrNoCookie) http.StatusUnauthorized
                http.StatusBadRequest eq_refl) as (Hst & Hloc & _ & Hsup & Hbody).
  repeat split; try assumption; try reflexivity.
  intros Hget Hct. cbn [Error] in Hbody |- *. rewrite Hbody.
  rewrite (Redirect_body (http.newResponseWriter h) r "/" http.StatusUnauthorized Hget Hct).
  reflexivity.
Qed.

(** C4, as amended.  The status of the callback response, case by
    case: 307 with [Location: /] on provider denial; 401 with
    [Location: /] on a missing state cookie and on a state mismatch; 400
    on any other cookie fault and when the token exchange, the profile
    fetch or the saved-tracks fetch fails; nothing written on success. *)
Theorem callback_status_codes
  (s : Server) (r : http.Request) (h : http.Header) (e : Entropy) :
  let rw := w (worldOf (handleAuthCallback s r (start h e))) in
  if negb (String.eqb (http.FormValue r "error") EmptyString) then
    http.statusOf rw = Some 307 /\ http.locationOf rw = Some "/"
  else
    match http.Request_Cookie r stateCookieName with
    | inr ErrNoCookie =>
        http.statusOf rw = Some 401 /\ http.locationOf rw = Some "/"
    | inr (errorString _) =>
        http.statusOf rw = Some 400
    | inl c =>
        if negb (String.eqb (http.FormValue r "state") (http.Value c)) then
          http.statusOf rw = Some 401 /\ http.locationOf rw = Some "/"
        else
          match Exchange (Config (client s)) (http.FormValue r "code") with
          | inr _ => http.statusOf rw = Some 400
          | inl token =>
              match GetUserProfileRequest (client s) token with
              | inr _ => http.statusOf rw = Some 400
              | inl _ =>
                  match GetUserSavedTracks (client s) token savedTracksParams with
                  | inr _ => http.statusOf rw = Some 400
                  | inl _ => http.statusOf rw = None
                  end
              end
          end
    end.
Proof.
  intros rw. subst rw. unfold handleAuthCallback.
  destruct (negb (String.eqb (http.FormValue r "error") EmptyString)).
  { run. writer_facts. }
  destruct (http.Request_Cookie r stateCookieName) as [c|[|msg]];
    cbn [is_ErrNoCookie].
  2:{ run.
      pose proof (Error_after_Redirect (http.newResponseWriter h) r "/"
                    (Error ErrNoCookie) http.StatusUnauthorized
                    http.StatusBadRequest eq_refl) as (Hst & Hloc & _).
      split; assumption. }
  2:{ run. writer_facts. }
  run.
  destruct (negb (String.eqb (http.FormValue r "state") (http.Value c))).
  { run. writer_facts. }
  run.
  destruct (Exchange (Config (client s)) (http.FormValue r "code")) as [token|err].
  2:{ run. writer_facts. }
  run.
  unfold savedTracksParams.
  destruct (json_Marshal (http.ReqHeader r));
    (destruct (GetUserProfileRequest (client s) token) as [user|err];
     [|run; writer_facts]);
    (destruct (GetUserSavedTracks (client s) token
                 (mkQParams (Some 50) (Some 0) (Some "us"))) as [tracks|err];
     [|run; writer_facts]);
    destruct (json_MarshalIndent tracks); reflexivity.
Qed.

Ltac in_list := cbn [app In]; repeat (first [left; reflexivity | right]).

(** What the callback does once the request has passed the three
    checks, by the answers of the provider. *)
Lemma callback_exchanging
  (s : Server) (r : http.Request) (h : http.Header) (e : Entropy) (c : http.Cookie) :
  http.FormValue r "error" = EmptyString ->
  http.Request_Cookie r stateCookieName = inl c ->
  http.FormValue r "state" = http.Value c ->
  let code := http.FormValue r "code" in
  let o := handleAuthCallback s r (start h e) in
  let rw0 := http.newResponseWriter h in
  returned o = true /\
  match Exchange (Config (client s)) code with
  | inr err =>
      callsOf (trace (worldOf o)) = [CallExchange code] /\
      w (worldOf o) = http.Error rw0 (Error err) http.StatusBadRequest
  | inl token =>
      match GetUserProfileRequest (client s) token with
      | inr err =>
          callsOf (trace (worldOf o)) = [CallExchange code; CallGetUserProfile token] /\
          w (worldOf o) = http.Error rw0 (Error err) http.StatusBadRequest
      | inl user =>
          In (Printed (LogPrintf ("%+v" ++ LF)) [VUser user]) (trace (worldOf o)) /\
          callsOf (trace (worldOf o)) =
            [CallExchange code; CallGetUserProfile token;
             CallGetUserSavedTracks token savedTracksParams] /\
          match GetUserSavedTracks (client s) token savedTracksParams with
          | inr err =>
              w (worldOf o) = http.Error rw0 (Error err) http.StatusBadRequest
          | inl tracks =>
              w (worldOf o) = rw0 /\
              In (Printed FmtPrint
                    [VStr match json_MarshalIndent tracks with
                          | inl b => b
                          | inr _ => EmptyString
                          end])
                 (trace (worldOf o))
          end
      end
  end.
Proof.
  intros Herr Hcookie Hstate code o rw0. subst code o rw0.
  unfold handleAuthCallback.
  rewrite Herr, Hcookie, Hstate, !String.eqb_refl. cbn [negb]. run.
  unfold savedTracksParams.
  destruct (Exchange (Config (client s)) (http.FormValue r "code")) as [token|err];
    [|run; auto].
  destruct (json_Marshal (http.ReqHeader r));
    (destruct (GetUserProfileRequest (client s) token) as [user|err2];
     [|run; auto]);
    (destruct (GetUserSavedTracks (client s) token
                 (mkQParams (Some 50) (Some 0) (Some "us"))) as [tracks|err3];
     [destruct (json_MarshalIndent tracks)|]);
    run; cbn [callsOf app];
    repeat split; try reflexivity; in_list.
Qed.

(** Whatever the request, the provider calls of one callback form an
    initial segment of exchange, profile, saved tracks, each later call
    being made with the token the exchange returned. *)
Lemma callback_calls_shape
  (s : Server) (r : http.Request) (h : http.Header) (e : Entropy) :
  let code := http.FormValue r "code" in
  let calls := callsOf (trace (worldOf (handleAuthCallback s r (start h e)))) in
  calls = [] \/
  calls = [CallExchange code] \/
  exists token,
    Exchange (Config (client s)) code = inl token /\
    (calls = [CallExchange code; CallGetUserProfile token] \/
     calls = [CallExchange code; CallGetUserProfile token;
              CallGetUserSavedTracks token savedTracksParams]).
Proof.
  intros code calls.
  destruct (String.eqb (http.FormValue r "error") EmptyString) eqn:Herr.
  2:{ left. subst calls. unfold handleAuthCallback. rewrite Herr. reflexivity. }
  destruct (http.Request_Cookie r stateCookieName) as [c|err] eqn:Hcookie.
  2:{ left. subst calls. unfold handleAuthCallback. rewrite Herr, Hcookie.
      destruct err; reflexivity. }
  destruct (String.eqb (http.FormValue r "state") (http.Value c)) eqn:Hstate.
  2:{ left. subst calls. unfold handleAuthCallback. rewrite Herr, Hcookie.
      cbn [negb]. run. rewrite Hstate. reflexivity. }
  apply String.eqb_eq in Herr, Hstate.
  pose proof (callback_exchanging s r h e c Herr Hcookie Hstate) as [_ H].
  cbv zeta in H. fold code in H. fold calls in H.
  destruct (Exchange (Config (client s)) code) as [token|err].
  2:{ right. left. apply H. }
  right. right. exists token. split; [reflexivity|].
  destruct (GetUserProfileRequest (client s) token) as [user|err].
  - right. apply H.
  - left. apply H.
Qed.

(** C6.  The provider operations of one callback are sequential: the
    calls made are always an initial segment of exchange, profile fetch,
    saved-tracks fetch, the later ones made with the token the exchange
    returned.  When a step fails the handler returns with a 400 response
    whose body is that step's error message, and no later step is
    called. *)
Theorem callback_steps_sequential
  (s : Server) (r : http.Request) (h : http.Header) (e : Entropy) :
  let code := http.FormValue r "code" in
  let o := handleAuthCallback s r (start h e) in
  let calls := callsOf (trace (worldOf o)) in
  let rw := w (worldOf o) in
  (calls = [] \/
   calls = [CallExchange code] \/
   exists token,
     Exchange (Config (client s)) code = inl token /\
     (calls = [CallExchange code; CallGetUserProfile token] \/
      calls = [CallExchange code; CallGetUserProfile token;
               CallGetUserSavedTracks token savedTracksParams])) /\
  forall c : http.Cookie,
    http.FormValue r "error" = EmptyString ->
    http.Request_Cookie r stateCookieName = inl c ->
    http.FormValue r "state" = http.Value c ->
    returned o = true /\
    match Exchange (Config (client s)) code with
    | inr err =>
        calls = [CallExchange code] /\
        http.statusOf rw = Some 400 /\
        http.body rw = [http.Text (Error err ++ LF)]
    | inl token =>
        match GetUserProfileRequest (client s) token with
        | inr err =>
            calls = [CallExchange code; CallGetUserProfile token] /\
            http.statusOf rw = Some 400 /\
            http.body rw = [http.Text (Error err ++ LF)]
        | inl _ =>
            calls = [CallExchange code; CallGetUserProfile token;
                     CallGetUserSavedTracks token savedTracksParams] /\
            match GetUserSavedTracks (client s) token savedTracksParams with
            | inr err =>
                http.statusOf rw = Some 400 /\
                http.body rw = [http.Text (Error err ++ LF)]
            | inl _ =>
                http.statusOf rw = None /\ http.body rw = []
            end
        end
    end.
Proof.
  intros code o calls rw. split.
  { apply callback_calls_shape. }
  intros c Herr Hcookie Hstate.
  pose proof (callback_exchanging s r h e c Herr Hcookie Hstate) as [Hret H].
  cbv zeta in H. fold code in H. fold o in H, Hret. fold calls in H. fold rw in H.
  split; [exact Hret|].
  destruct (Exchange (Config (client s)) code) as [token|err].
  2:{ destruct H as [Hcalls ->]. split; [exact Hcalls|]. writer_facts. }
  destruct (GetUserProfileRequest (client s) token) as [user|err].
  2:{ destruct H as [Hcalls ->]. split; [exact Hcalls|]. writer_facts. }
  destruct H as (_ & Hcalls & H). split; [exact Hcalls|].
  destruct (GetUserSavedTracks (client s) token savedTracksParams) as [tracks|err].
  - destruct H as [-> _]. split; reflexivity.
  - rewrite H. writer_facts.
Qed.

(** C8.  Every saved-tracks fetch the callback makes carries limit 50,
    offset 0 and market [us].  On the success path the profile and the
    track page only reach the log and standard output: the response
    writer is left exactly as the handler received it. *)
Theorem callback_success_only_logs
  (s : Server) (r : http.Request) (h : http.Header) (e : Entropy) :
  let code := http.FormValue r "code" in
  let o := handleAuthCallback s r (start h e) in
  (forall (token : Token) (params : QParams),
     In (CallGetUserSavedTracks token params) (callsOf (trace (worldOf o))) ->
     params = mkQParams (Some 50) (Some 0) (Some "us")) /\
  forall (c : http.Cookie) (token : Token) (user : User) (tracks : SavedTracks),
    http.FormValue r "error" = EmptyString ->
    http.Request_Cookie r stateCookieName = inl c ->
    http.FormValue r "state" = http.Value c ->
    Exchange (Config (client s)) code = inl token ->
    GetUserProfileRequest (client s) token = inl user ->
    GetUserSavedTracks (client s) token (mkQParams (Some 50) (Some 0) (Some "us"))
      = inl tracks ->
    returned o = true /\
    callsOf (trace (worldOf o)) =
      [CallExchange code; CallGetUserProfile token;
       CallGetUserSavedTracks token (mkQParams (Some 50) (Some 0) (Some "us"))] /\
    w (worldOf o) = http.newResponseWriter h /\
    http.statusOf (w (worldOf o)) = None /\
    http.body (w (worldOf o)) = [] /\
    http.setCookies (w (worldOf o)) = [] /\
    In (Printed (LogPrintf ("%+v" ++ LF)) [VUser user]) (trace (worldOf o)) /\
    In (Printed FmtPrint
          [VStr match json_MarshalIndent tracks with
                | inl b => b
                | inr _ => EmptyString
                end])
       (trace (worldOf o)).
Proof.
  intros code o. split.
  - intros token params Hin.
    pose proof (callback_calls_shape s r h e) as Hshape.
    cbv zeta in Hshape. fold code in Hshape. fold o in Hshape.
    destruct Hshape as [H|[H|[tok [_ [H|H]]]]]; rewrite H in Hin; cbn [In] in Hin;
      repeat match goal with
             | H : _ \/ _ |- _ => destruct H as [H|H]
             | H : False |- _ => destruct H
             end;
      try discriminate.
    injection Hin as _ <-. reflexivity.
  - intros c token user tracks Herr Hcookie Hstate Hex Hprofile Htracks.
    pose proof (callback_exchanging s r h e c Herr Hcookie Hstate) as [Hret H].
    cbv zeta in H. fold code in H. fold o in H, Hret.
    unfold savedTracksParams in H.
    rewrite Hex, Hprofile, Htracks in H.
    destruct H as (Huser & Hcalls & Hw & Htr).
    rewrite Hw. repeat split; try assumption; reflexivity.
Qed.

(** *** The state token generator *)

(** C5, as amended.  Whenever [genRandState] returns, its result is
    the standard padded base64 encoding of the 32 bytes read from the
    entropy source: 44 characters of the standard alphabet (which has
    [+] and [/]) ending in the padding character [=].  It is therefore
    never URL-safe. *)
Theorem genRandState_returns_std_base64 (W W' : World) (state : string) :
  genRandState W = Returned state W' ->
  exists bytes : list byte,
    length bytes = 32%nat /\
    (exists data, entropy W (reads W) 32%nat = inl data /\
                  bytes = fill (make 32) data) /\
    state = base64.StdEncoding_EncodeToString bytes /\
    String.length state = 44%nat /\
    (forall c, In c (list_ascii_of_string state) ->
               In c (list_ascii_of_string base64.encodeStd) \/ c = "="%char) /\
    (exists body, state = body ++ "=") /\
    url.url_safe state = false.
Proof.
  rewrite genRandState_run. cbv zeta.
  destruct (entropy W (reads W) 32%nat) as [data|err]; [|discriminate].
  intros Hret. injection Hret as <- _.
  assert (Hlen : length (fill (make 32) data) = 32%nat).
  { rewrite fill_length. reflexivity. }
  exists (fill (make 32) data). unfold base64.StdEncoding_EncodeToString.
  split; [exact Hlen|]. split; [eauto|]. split; [reflexivity|].
  split; [rewrite Encode_length, Hlen; reflexivity|].
  split; [intros c; apply Encode_chars; reflexivity|].
  split.
  - apply (Encode_padded _ 10). rewrite Hlen. reflexivity.
  - apply (Encode_padded_not_url_safe _ 10). rewrite Hlen. reflexivity.
Qed.

(** When the entropy source fails the generator does not return: the
    process exits after the fatal log line. *)
Lemma genRandState_fatal (W : World) (err : error) :
  entropy W (reads W) 32%nat = inr err ->
  returned (genRandState W) = false /\
  w (worldOf (genRandState W)) = w W.
Proof.
  intros H. rewrite genRandState_run. cbv zeta. rewrite H. split; reflexivity.
Qed.

(** *** GET /auth *)

Lemma isCookieNameValid_stateCookieName :
  http.isCookieNameValid stateCookieName = true.
Proof. reflexivity. Qed.

(** X2.  Without entropy [GET /auth] ends the process before anything
    is written: no cookie, no redirect. *)
Lemma auth_exits_without_entropy
  (s : Server) (r : http.Request) (h : http.Header) (e : Entropy) (err : error) :
  e 0%nat 32%nat = inr err ->
  let o := handleAuth s r (start h e) in
  returned o = false /\ w (worldOf o) = http.newResponseWriter h.
Proof.
  intros Herr o. subst o. unfold handleAuth.
  destruct (http.Request_Cookie r stateCookieName) as [c|err']; run;
    rewrite genRandState_run; cbv zeta; cbn [w trace entropy reads];
    rewrite Herr; split; reflexivity.
Qed.

(** *** GET /logout/{provider} *)

(** C10.  [GET /logout/{provider}] sets [Location: /] and writes status
    307, and does nothing else: the cookies of the response, its body,
    the trace (hence no provider call) and the entropy source are
    untouched. *)
Theorem logout_only_redirects_home (r : http.Request) :
  (forall W : World,
     handleLogout r W =
       Returned tt
         (mkWorld
            (http.WriteHeader (http.setHeader (w W) "Location" "/")
                              http.StatusTemporaryRedirect)
            (trace W) (entropy W) (reads W)) /\
     http.setCookies (w (worldOf (handleLogout r W))) = http.setCookies (w W) /\
     http.body (w (worldOf (handleLogout r W))) = http.body (w W)) /\
  (forall (h : http.Header) (e : Entropy),
     let W' := worldOf (handleLogout r (start h e)) in
     http.statusOf (w W') = Some 307 /\
     http.locationOf (w W') = Some "/" /\
     http.cookiesOf (w W') = [] /\
     http.setCookies (w W') = [] /\
     http.body (w W') = [] /\
     trace W' = [] /\
     reads W' = 0%nat).
Proof.
  split.
  - intros W. unfold handleLogout. run.
    split; [reflexivity|].
    destruct W as [[hd cs [sent|] b sf] tr en rd]; split; reflexivity.
  - intros h e W'. subst W'. repeat split; reflexivity.
Qed.

(** *** The encoding loses nothing *)

Lemma uint_range (b : byte) : 0 <= base64.uint b < 256.
Proof.
  unfold base64.uint. pose proof (Byte.to_N_bounded b). lia.
Qed.

Lemma uint_inj (a b : byte) : base64.uint a = base64.uint b -> a = b.
Proof.
  unfold base64.uint. intros H. apply N2Z.inj in H.
  pose proof (Byte.of_to_N a) as Ha. rewrite H, Byte.of_to_N in Ha.
  congruence.
Qed.

Lemma lor_shiftl_add (hi lo k : Z) :
  0 <= k -> 0 <= lo < 2 ^ k -> Z.lor (Z.shiftl hi k) lo = hi * 2 ^ k + lo.
Proof.
  intros Hk Hlo.
  rewrite <- Z.shiftl_mul_pow2 by exact Hk.
  rewrite <- Z.add_lor_land.
  assert (Hland : Z.land (Z.shiftl hi k) lo = 0).
  { apply Z.bits_inj'. intros n Hn.
    rewrite Z.land_spec, Z.bits_0.
    destruct (Z.ltb_spec n k) as [Hlt|Hge].
    - rewrite Z.shiftl_spec_low by exact Hlt. reflexivity.
    - assert (Hbit : Z.testbit lo n = false).
      { destruct (Z.eq_dec lo 0) as [->|Hnz]; [apply Z.bits_0|].
        apply Z.bits_above_log2; [lia|].
        apply Z.log2_lt_pow2; [lia|].
        apply Z.lt_le_trans with (2 ^ k); [lia|].
        apply Z.pow_le_mono_r; lia. }
      rewrite Hbit. apply andb_false_r. }
  rewrite Hland. lia.
Qed.

(** The 24-bit group of three bytes, and its four sextets. *)
Lemma group_value (s0 s1 s2 : byte) :
  Z.lor (Z.lor (Z.shiftl (base64.uint s0) 16) (Z.shiftl (base64.uint s1) 8))
        (base64.uint s2)
  = base64.uint s0 * 65536 + base64.uint s1 * 256 + base64.uint s2.
Proof.
  pose proof (uint_range s0). pose proof (uint_range s1). pose proof (uint_range s2).
  rewrite (Z.shiftl_mul_pow2 (base64.uint s1)) by lia.
  rewrite (lor_shiftl_add (base64.uint s0) (base64.uint s1 * 2 ^ 8) 16)
    by (change (2 ^ 8) with 256; change (2 ^ 16) with 65536; lia).
  replace (base64.uint s0 * 2 ^ 16 + base64.uint s1 * 2 ^ 8)
    with (Z.shiftl (base64.uint s0 * 256 + base64.uint s1) 8)
    by (rewrite Z.shiftl_mul_pow2 by lia;
        change (2 ^ 8) with 256; change (2 ^ 16) with 65536; lia).
  rewrite lor_shiftl_add by (change (2 ^ 8) with 256; lia).
  change (2 ^ 8) with 256. lia.
Qed.

Lemma sextet_div (val shift : Z) :
  0 <= shift ->
  Z.land (Z.shiftr val shift) 0x3F = (val / 2 ^ shift) mod 64.
Proof.
  intros Hs. rewrite Z.shiftr_div_pow2 by exact Hs.
  change 0x3F with (Z.ones 6). rewrite Z.land_ones by lia. reflexivity.
Qed.

(** Index of a character in the standard alphabet. *)
Lemma encodeStd_index_inj (i j : Z) :
  0 <= i < 64 -> 0 <= j < 64 ->
  base64.encode base64.encodeStd i = base64.encode base64.encodeStd j -> i = j.
Proof.
  intros Hi Hj H. unfold base64.encode in H.
  assert (Hnodup : NoDup (list_ascii_of_string base64.encodeStd)).
  { apply (NoDup_count_occ' Ascii.ascii_dec). intros c Hin.
    cbn in Hin.
    repeat (destruct Hin as [<-|Hin]; [vm_compute; reflexivity|]).
    destruct Hin. }
  rewrite NoDup_nth in Hnodup.
  assert (Z.to_nat i = Z.to_nat j).
  { apply (Hnodup _ _ ); [cbn; lia | cbn; lia | exact H]. }
  lia.
Qed.

Lemma sextets_determine (v v' : Z) :
  0 <= v < 16777216 -> 0 <= v' < 16777216 ->
  (v / 2 ^ 18) mod 64 = (v' / 2 ^ 18) mod 64 ->
  (v / 2 ^ 12) mod 64 = (v' / 2 ^ 12) mod 64 ->
  (v / 2 ^ 6) mod 64 = (v' / 2 ^ 6) mod 64 ->
  v / 2 ^ 6 = v' / 2 ^ 6 /\
  ((v / 2 ^ 0) mod 64 = (v' / 2 ^ 0) mod 64 -> v = v').
Proof.
  change (2 ^ 18) with 262144. change (2 ^ 12) with 4096.
  change (2 ^ 6) with 64. change (2 ^ 0) with 1.
  intros Hv Hv' H18 H12 H6.
  split; [|intros H0]; Z.to_euclidean_division_equations; lia.
Qed.

Lemma two_sextets_determine (v v' : Z) :
  0 <= v < 16777216 -> 0 <= v' < 16777216 ->
  (v / 2 ^ 18) mod 64 = (v' / 2 ^ 18) mod 64 ->
  (v / 2 ^ 12) mod 64 = (v' / 2 ^ 12) mod 64 ->
  v / 2 ^ 12 = v' / 2 ^ 12.
Proof.
  change (2 ^ 18) with 262144. change (2 ^ 12) with 4096.
  intros Hv Hv' H18 H12.
  Z.to_euclidean_division_equations; lia.
Qed.

Ltac sextet_eq H :=
  apply encodeStd_index_inj in H; [|apply sextet_range|apply sextet_range];
  rewrite !sextet_div in H by lia.

Lemma String_inj (c c' : ascii) (s s' : string) :
  String c s = String c' s' -> c = c' /\ s = s'.
Proof. intros H. split; congruence. Qed.

(** The standard encoding is injective on sources of one length. *)
Lemma StdEncoding_inj (src src' : list byte) :
  length src = length src' ->
  base64.StdEncoding_EncodeToString src = base64.StdEncoding_EncodeToString src' ->
  src = src'.
Proof.
  unfold base64.StdEncoding_EncodeToString. revert src'.
  induction src as [|a|a b|a b c rest IH] using list_ind3;
    intros [|a' [|b' [|c' rest']]] Hlen H; try discriminate Hlen;
    cbn [base64.Encode] in H.
  - reflexivity.
  - apply String_inj in H. destruct H as [H18 H].
    apply String_inj in H. destruct H as [H12 _].
    sextet_eq H18. sextet_eq H12.
    pose proof (uint_range a). pose proof (uint_range a').
    rewrite !Z.shiftl_mul_pow2 in H18, H12 by lia.
    change (2 ^ 16) with 65536 in *.
    assert (Hv := two_sextets_determine (base64.uint a * 65536) (base64.uint a' * 65536)
                    ltac:(lia) ltac:(lia) H18 H12).
    change (2 ^ 12) with 4096 in Hv.
    f_equal. apply uint_inj. Z.to_euclidean_division_equations; lia.
  - apply String_inj in H. destruct H as [H18 H].
    apply String_inj in H. destruct H as [H12 H].
    apply String_inj in H. destruct H as [H6 _].
    sextet_eq H18. sextet_eq H12. sextet_eq H6.
    pose proof (uint_range a). pose proof (uint_range a').
    pose proof (uint_range b). pose proof (uint_range b').
    rewrite !(Z.shiftl_mul_pow2 _ 8) in H18, H12, H6 by lia.
    rewrite !lor_shiftl_add in H18, H12, H6
      by (change (2 ^ 8) with 256; change (2 ^ 16) with 65536; lia).
    change (2 ^ 8) with 256 in *. change (2 ^ 16) with 65536 in *.
    destruct (sextets_determine
                (base64.uint a * 65536 + base64.uint b * 256)
                (base64.uint a' * 65536 + base64.uint b' * 256)
                ltac:(lia) ltac:(lia) H18 H12 H6) as [Hv _].
    change (2 ^ 6) with 64 in Hv.
    assert (base64.uint a = base64.uint a' /\ base64.uint b = base64.uint b')
      as [Ha Hb] by (Z.to_euclidean_division_equations; lia).
    apply uint_inj in Ha, Hb. subst. reflexivity.
  - cbn [length] in Hlen.
    apply String_inj in H. destruct H as [H18 H].
    apply String_inj in H. destruct H as [H12 H].
    apply String_inj in H. destruct H as [H6 H].
    apply String_inj in H. destruct H as [H0 Hrest].
    sextet_eq H18. sextet_eq H12. sextet_eq H6. sextet_eq H0.
    rewrite !group_value in H18, H12, H6, H0.
    pose proof (uint_range a). pose proof (uint_range a').
    pose proof (uint_range b). pose proof (uint_range b').
    pose proof (uint_range c). pose proof (uint_range c').
    destruct (sextets_determine
                (base64.uint a * 65536 + base64.uint b * 256 + base64.uint c)
                (base64.uint a' * 65536 + base64.uint b' * 256 + base64.uint c')
                ltac:(lia) ltac:(lia) H18 H12 H6) as [_ Hv].
    specialize (Hv H0).
    assert (base64.uint a = base64.uint a' /\ base64.uint b = base64.uint b'
            /\ base64.uint c = base64.uint c')
      as (Ha & Hb & Hc) by lia.
    apply uint_inj in Ha, Hb, Hc. subst.
    f_equal. f_equal. f_equal. apply IH; [lia|exact Hrest].
Qed.

(** *** More on the state token generator and [GET /auth] *)

(** X1.  Two runs of the generator return the same state exactly when the
    entropy source filled the buffer with the same 32 bytes. *)
Theorem genRandState_state_iff_bytes
  (W1 W2 W1' W2' : World) (state1 state2 : string) (data1 data2 : list byte) :
  entropy W1 (reads W1) 32%nat = inl data1 ->
  entropy W2 (reads W2) 32%nat = inl data2 ->
  genRandState W1 = Returned state1 W1' ->
  genRandState W2 = Returned state2 W2' ->
  (state1 = state2 <-> fill (make 32) data1 = fill (make 32) data2).
Proof.
  intros H1 H2. rewrite !genRandState_run. cbv zeta. rewrite H1, H2.
  intros R1 R2. injection R1 as <- _. injection R2 as <- _.
  split.
  - apply StdEncoding_inj. rewrite !fill_length. reflexivity.
  - intros ->. reflexivity.
Qed.

Lemma setCookies_Redirect (rw : http.ResponseWriter) (r : http.Request) (url : string) (code : Z) :
  http.setCookies (http.Redirect rw r url code) = http.setCookies rw.
Proof.
  destruct rw as [h cs [sent|] b sf]; unfold http.Redirect; cbn [http.header];
    destruct (http.Header_has h "Content-Type");
    destruct (String.eqb (http.Method r) "GET");
    destruct (String.eqb (http.Method r) "HEAD"); reflexivity.
Qed.

Lemma setCookies_Error (rw : http.ResponseWriter) (msg : string) (code : Z) :
  http.setCookies (http.Error rw msg code) = http.setCookies rw.
Proof.
  destruct rw as [h cs [sent|] b sf]; reflexivity.
Qed.

Lemma Redirect_method (rw : http.ResponseWriter) (r1 r2 : http.Request) (url : string) (code : Z) :
  http.Method r1 = http.Method r2 ->
  http.Redirect rw r1 url code = http.Redirect rw r2 url code.
Proof.
  intros H. unfold http.Redirect. rewrite H. reflexivity.
Qed.

(** The outcome of [GET /auth], by the outcome of the entropy read. *)
Lemma handleAuth_outcome
  (s : Server) (r : http.Request) (h : http.Header) (e : Entropy) :
  let o := handleAuth s r (start h e) in
  match e 0%nat 32%nat with
  | inl data =>
      let state := base64.StdEncoding_EncodeToString (fill (make 32) data) in
      returned o = true /\
      w (worldOf o) =
        http.Redirect
          (http.mkResponseWriter h [NewCookie stateCookieName state] None [] [])
          r (AuthCodeURL (Config (client s)) state) http.StatusTemporaryRedirect
  | inr _ =>
      returned o = false /\ w (worldOf o) = http.newResponseWriter h
  end.
Proof.
  intros o. subst o. unfold handleAuth.
  destruct (http.Request_Cookie r stateCookieName) as [c|err]; run;
    rewrite genRandState_run; cbv zeta; cbn [w trace entropy reads];
    destruct (e 0%nat 32%nat) as [data|err']; run; split; reflexivity.
Qed.



(** X3.  The login response does not depend on the cookies (or anything but
    the method) of the request: a browser that already holds a state
    cookie is issued a new one all the same. *)
Theorem auth_response_ignores_request_cookies
  (s : Server) (r1 r2 : http.Request) (h : http.Header) (e : Entropy) :
  http.Method r1 = http.Method r2 ->
  let o1 := handleAuth s r1 (start h e) in
  let o2 := handleAuth s r2 (start h e) in
  returned o1 = returned o2 /\ w (worldOf o1) = w (worldOf o2).
Proof.
  intros Hm o1 o2.
  pose proof (handleAuth_outcome s r1 h e) as H1.
  pose proof (handleAuth_outcome s r2 h e) as H2.
  cbv zeta in H1, H2. fold o1 in H1. fold o2 in H2.
  destruct (e 0%nat 32%nat) as [data|err];
    destruct H1 as [R1 ->]; destruct H2 as [R2 ->]; rewrite R1, R2;
    split; try reflexivity.
  apply Redirect_method. exact Hm.
Qed.

(** X4.  Round trip of one login: the browser returns the cookies [GET /auth]
    issued, the provider echoes the state [GET /auth] put in the consent
    URL; such a callback passes the state check and the code it carries
    is exchanged. *)
Theorem login_callback_round_trip
  (s : Server) (r r' : http.Request) (h h' : http.Header) (e e' : Entropy)
  (data : list byte) :
  e 0%nat 32%nat = inl data ->
  let state := base64.StdEncoding_EncodeToString (fill (make 32) data) in
  let issued := http.cookiesOf (w (worldOf (handleAuth s r (start h e)))) in
  http.FormValue r' "error" = EmptyString ->
  http.Request_Cookie r' stateCookieName = http.readCookies issued stateCookieName ->
  http.FormValue r' "state" = state ->
  http.locationOf (w (worldOf (handleAuth s r (start h e))))
    = Some (AuthCodeURL (Config (client s)) state) /\
  exists rest,
    callsOf (trace (worldOf (handleAuthCallback s r' (start h' e'))))
    = CallExchange (http.FormValue r' "code") :: rest.
Proof.
  intros Hdata state issued Herr Hcookie Hstate.
  pose proof (handleAuth_outcome s r h e) as Hauth.
  cbv zeta in Hauth. rewrite Hdata in Hauth. fold state in Hauth.
  destruct Hauth as [_ Hw].
  pose proof (Redirect_fresh
                (http.mkResponseWriter h [NewCookie stateCookieName state] None [] [])
                r (AuthCodeURL (Config (client s)) state)
                http.StatusTemporaryRedirect eq_refl)
    as (_ & Hloc & Hck & _).
  rewrite <- Hw in Hloc, Hck. split; [exact Hloc|].
  subst issued. rewrite Hck in Hcookie. cbn in Hcookie.
  assert (Hmatch : http.FormValue r' "state"
                   = http.Value (NewCookie stateCookieName state)) by exact Hstate.
  pose proof (callback_exchanging s r' h' e' _ Herr Hcookie Hmatch) as [_ H].
  cbv zeta in H.
  destruct (Exchange (Config (client s)) (http.FormValue r' "code")) as [token|err].
  - destruct (GetUserProfileRequest (client s) token) as [user|err].
    + destruct H as (_ & -> & _). eauto.
    + destruct H as [-> _]. eauto.
  - destruct H as [-> _]. eauto.
Qed.

(** *** More on [GET /auth/callback] *)

(** What the callback does with a request it turns away at one of its
    three checks. *)
Lemma callback_rejecting
  (s : Server) (r : http.Request) (h : http.Header) (e : Entropy) :
  let o := handleAuthCallback s r (start h e) in
  let rw0 := http.newResponseWriter h in
  (http.FormValue r "error" <> EmptyString ->
   returned o = true /\ callsOf (trace (worldOf o)) = [] /\
   w (worldOf o) = http.Redirect rw0 r "/" http.StatusTemporaryRedirect) /\
  (http.FormValue r "error" = EmptyString ->
   forall err, http.Request_Cookie r stateCookieName = inr err ->
   returned o = true /\ callsOf (trace (worldOf o)) = [] /\
   w (worldOf o) =
     http.Error (if is_ErrNoCookie err
                 then http.Redirect rw0 r "/" http.StatusUnauthorized
                 else rw0)
                (Error err) http.StatusBadRequest) /\
  (http.FormValue r "error" = EmptyString ->
   forall c, http.Request_Cookie r stateCookieName = inl c ->
   http.FormValue r "state" <> http.Value c ->
   returned o = true /\ callsOf (trace (worldOf o)) = [] /\
   w (worldOf o) = http.Redirect rw0 r "/" http.StatusUnauthorized).
Proof.
  intros o rw0. subst o rw0. unfold handleAuthCallback. repeat apply conj.
  - intros Herr. rewrite (eqb_empty_false _ Herr). cbn [negb]. run.
    repeat split; reflexivity.
  - intros Herr err Hcookie. rewrite Herr, Hcookie. cbn [String.eqb negb].
    destruct err; cbn [is_ErrNoCookie]; run; repeat split; reflexivity.
  - intros Herr c Hcookie Hstate. apply String.eqb_neq in Hstate.
    rewrite Herr, Hcookie. cbn [String.eqb negb]. run. rewrite Hstate. cbn [negb]. run.
    repeat split; reflexivity.
Qed.


(** X6.  The callback always returns to the server: no provider failure
    ends the process.  It never sets or clears a cookie and never
    touches the entropy source, whatever the request and whatever the
    provider answers. *)
Theorem callback_never_exits_nor_sets_cookies
  (s : Server) (r : http.Request) (W : World) :
  let o := handleAuthCallback s r W in
  returned o = true /\
  http.setCookies (w (worldOf o)) = http.setCookies (w W) /\
  entropy (worldOf o) = entropy W /\
  reads (worldOf o) = reads W.
Proof.
  intros o. subst o. destruct W as [rw tr en rd]. unfold handleAuthCallback.
  destruct (negb (String.eqb (http.FormValue r "error") EmptyString)).
  { run. rewrite setCookies_Redirect. repeat split; reflexivity. }
  destruct (http.Request_Cookie r stateCookieName) as [c|[|msg]];
    cbn [is_ErrNoCookie]; run.
  2:{ rewrite setCookies_Error, setCookies_Redirect. repeat split; reflexivity. }
  2:{ rewrite setCookies_Error. repeat split; reflexivity. }
  destruct (negb (String.eqb (http.FormValue r "state") (http.Value c))).
  { run. rewrite setCookies_Redirect. repeat split; reflexivity. }
  run.
  destruct (Exchange (Config (client s)) (http.FormValue r "code")) as [token|err].
  2:{ run. rewrite setCookies_Error. repeat split; reflexivity. }
  run.
  destruct (json_Marshal (http.ReqHeader r));
    (destruct (GetUserProfileRequest (client s) token) as [user|err];
     [|run; rewrite setCookies_Error; repeat split; reflexivity]);
    (destruct (GetUserSavedTracks (client s) token
                 (mkQParams (Some 50) (Some 0) (Some "us"))) as [tracks|err];
     [|run; rewrite setCookies_Error; repeat split; reflexivity]);
    destruct (json_MarshalIndent tracks); run; repeat split; reflexivity.
Qed.

(** *** Startup *)

(** A server that [NewServer] returned has its configuration. *)
Lemma NewServer_configured_cfg
  (fileName : string) (log log' : list BootLine) (s : ServerStruct) :
  NewServer fileName log = Up s log' -> exists cfg, s_cfg s = Some cfg.
Proof.
  unfold NewServer, initCfg, initClient, routes, bindB, retB, boot_fatal, panic.
  destruct (env_LoadTOMLFile fileName) as [cfg|err]; [|discriminate].
  cbn [s_cfg s_client s_router s_httpServer zeroServer].
  destruct (env.index (env.Oauth2Providers cfg) "spotify") as [provider|];
    [|discriminate].
  intros H. injection H as <- _. exists cfg. reflexivity.
Qed.

(** X8.  Whenever [NewServer] returns, the server is fully wired: the
    configuration is the one loaded from the file, the client is built
    from the three fields of the [spotify] provider entry, the router is
    in place, no [http.Server] exists yet, and nothing was logged. *)
Theorem NewServer_returns_configured
  (fileName : string) (log log' : list BootLine) (s : ServerStruct) :
  NewServer fileName log = Up s log' ->
  exists cfg provider,
    env_LoadTOMLFile fileName = inl cfg /\
    env.index (env.Oauth2Providers cfg) "spotify" = Some provider /\
    s_cfg s = Some cfg /\
    s_client s = Some (spotifyapi_NewClient (env.ClientID provider)
                                            (env.ClientSecret provider)
                                            (env.RedirectURL provider)) /\
    serving s = Some (mkServer (spotifyapi_NewClient (env.ClientID provider)
                                                     (env.ClientSecret provider)
                                                     (env.RedirectURL provider))) /\
    s_router s <> None /\
    s_httpServer s = None /\
    log' = log.
Proof.
  unfold NewServer, initCfg, initClient, routes, bindB, retB, boot_fatal, panic.
  destruct (env_LoadTOMLFile fileName) as [cfg|err]; [|discriminate].
  cbn [s_cfg s_client s_router s_httpServer zeroServer].
  destruct (env.index (env.Oauth2Providers cfg) "spotify") as [provider|] eqn:Hp;
    [|discriminate].
  intros H. injection H as Hs Hlog.
  rewrite <- Hs, <- Hlog. exists cfg, provider.
  repeat apply conj; try reflexivity; [exact Hp|]. cbn [s_router]. discriminate.
Qed.

(** X9.  How [NewServer] fails.  A configuration file that cannot be loaded
    ends the process with a fatal log line; a configuration without a
    [spotify] provider entry makes it panic.  In neither case is a
    client built, and the lookup is by the exact key. *)
Theorem NewServer_failures (fileName : string) (log : list BootLine) :
  (forall err, env_LoadTOMLFile fileName = inr err ->
     NewServer fileName log
     = FatalExit (log ++ [Fatal "Error loading .toml file into struct config"])) /\
  (forall cfg, env_LoadTOMLFile fileName = inl cfg ->
     env.index (env.Oauth2Providers cfg) "spotify" = None ->
     NewServer fileName log = Panic "Spotify env properties not found in config" log) /\
  (forall cfg, env_LoadTOMLFile fileName = inl cfg ->
     (forall k p, In (k, p) (env.Oauth2Providers cfg) -> k <> "spotify") ->
     NewServer fileName log = Panic "Spotify env properties not found in config" log).
Proof.
  assert (Hmissing : forall cfg, env_LoadTOMLFile fileName = inl cfg ->
            env.index (env.Oauth2Providers cfg) "spotify" = None ->
            NewServer fileName log
            = Panic "Spotify env properties not found in config" log).
  { intros cfg Hload Hidx.
    unfold NewServer, initCfg, initClient, bindB, retB, panic.
    rewrite Hload. cbn [s_cfg zeroServer]. rewrite Hidx. reflexivity. }
  repeat apply conj.
  - intros err Hload.
    unfold NewServer, initCfg, bindB, boot_fatal. rewrite Hload. reflexivity.
  - exact Hmissing.
  - intros cfg Hload Hkeys. apply (Hmissing cfg Hload).
    revert Hkeys. generalize (env.Oauth2Providers cfg). intros m.
    induction m as [|[k p] m IH]; intros Hkeys; [reflexivity|].
    cbn [env.index].
    destruct (String.eqb k "spotify") eqn:Hk.
    + apply String.eqb_eq in Hk. exfalso. apply (Hkeys k p); [left; reflexivity|exact Hk].
    + apply IH. intros k' p' Hin. apply (Hkeys k' p'). right. exact Hin.
Qed.

(** X10.  [Start] on a server that [NewServer] returned never panics.  It
    listens on [:] followed by the configured port, with read and write
    timeouts of ten seconds and the router as handler; it returns, after
    logging that the server closed, exactly when [ListenAndServe]
    reports [ErrServerClosed], and any other error ends the process. *)
Theorem Start_after_NewServer
  (fileName : string) (log log' : list BootLine) (s : ServerStruct) :
  NewServer fileName log = Up s log' ->
  exists cfg,
    s_cfg s = Some cfg /\
    let port := env.Port (env.Server cfg) in
    let srv := mkHttpServer (":" ++ port) (s_router s) 10000000000 10000000000 in
    let listening := Printf ("server listening on %s" ++ LF) port in
    match ListenAndServe srv with
    | ErrServerClosed =>
        Start s log' =
          Up (mkServerStruct (s_cfg s) (s_client s) (s_router s) (Some srv))
             (log' ++ [listening; Println "Server closed!"])
    | otherServeError err =>
        Start s log' =
          FatalExit (log' ++ [listening;
                              Fatalf "ListenAndServe err: %s" (otherServeError err)])
    end.
Proof.
  intros Hnew.
  destruct (NewServer_configured_cfg fileName log log' s Hnew) as [cfg Hcfg].
  exists cfg. split; [exact Hcfg|]. cbv zeta.
  unfold Start, bindB, boot_log, boot_fatal, retB. rewrite Hcfg.
  change (10 * time_Second) with 10000000000.
  destruct (ListenAndServe _) as [|err]; rewrite <- app_assoc; reflexivity.
Qed.
End Spotifyservice.

Arguments start {Token User} h e.
Arguments worldOf {Token User A} o.
Arguments resultOf {Token User A} o.
Arguments returned {Token User A} o.
Arguments callsOf {Token User} tr.
Arguments w {Token User} _.
Arguments trace {Token User} _.
Arguments reads {Token User} _.
Arguments genRandState {Token User} _.
Arguments handleAuth {Token User SavedTracks} cookieMaxAge tls s r _.
Arguments handleAuthCallback {Token User SavedTracks} json_Marshal json_MarshalIndent s r _.
Arguments provider {Token User SavedTracks} token user tracks.
Arguments Returned {Token User A} a W.
Arguments mkWorld {Token User} w trace entropy reads.
Arguments Printed {Token User} p args.
Arguments VStr {Token User} s.
Arguments CallExchange {Token} code.
Arguments CallGetUserProfile {Token} token.
Arguments CallGetUserSavedTracks {Token} token params.

(** ** The claims on concrete requests

    The scenarios of the specification: the login cookie
    [oauthState=ABC123], the callback [state=ABC123&code=XYZ], a denial
    [error=access_denied] and a forged [state=WRONG].  Tokens, profiles
    and track pages are plain strings here, and both JSON encoders
    succeed. *)


(** C1 as amended, on a state that differs from the cookie only in case. *)
Lemma callback_state_mismatch_witness :
  let r := get [("state", "abc123"); ("code", "XYZ")] [oauthStateABC123] in
  let o := handleAuthCallback (fun _ => inl "{}") (fun t : string => inl t)
             (provider (inl "token") (inl "user") (inl "tracks")) r
             (start [] noEntropy) in
  http.Request_Cookie r stateCookieName = inl oauthStateABC123 /\
  http.FormValue r "state" <> http.Value oauthStateABC123 /\
  http.FormValue r "error" = EmptyString /\
  callsOf (trace (worldOf o)) = [] /\
  http.statusOf (w (worldOf o)) = Some 401 /\
  http.locationOf (w (worldOf o)) = Some "/".
Proof.
  intros r o.
  assert (Hcookie : http.Request_Cookie r stateCookieName = inl oauthStateABC123)
    by reflexivity.
  assert (Hstate : http.FormValue r "state" <> http.Value oauthStateABC123)
    by (vm_compute; discriminate).
  assert (Herr : http.FormValue r "error" = EmptyString) by reflexivity.
  destruct (callback_state_mismatch string string string
              (fun _ => inl "{}") (fun t : string => inl t)
              (provider (inl "token") (inl "user") (inl "tracks")) r [] noEntropy
              oauthStateABC123 Hcookie Hstate)
    as (Hcalls & Hrest).
  destruct (Hrest Herr) as (_ & _ & _ & Hst & Hloc).
  repeat apply conj; assumption.
Defined.

(** The claim C1 as stated fails: a forged state behind a provider
    error is answered by the denial branch, a 307 redirect, not by the
    unauthorized response of the mismatch branch. *)
Lemma callback_state_mismatch_after_provider_error :
  let r := get [("error", "access_denied"); ("state", "WRONG"); ("code", "XYZ")]
               [oauthStateABC123] in
  let o := handleAuthCallback (fun _ => inl "{}") (fun t : string => inl t)
             (provider (inl "token") (inl "user") (inl "tracks")) r
             (start [] noEntropy) in
  http.Request_Cookie r stateCookieName = inl oauthStateABC123 /\
  http.FormValue r "state" <> http.Value oauthStateABC123 /\
  http.statusOf (w (worldOf o)) = Some http.StatusTemporaryRedirect /\
  http.statusOf (w (worldOf o)) <> Some http.StatusUnauthorized /\
  ~ In (Printed LogPrintln
          [VStr "invalid oauth2 spotify state. state_mismatch err"])
       (trace (worldOf o)).
Proof.
  vm_compute. split; [reflexivity|]. split; [discriminate|].
  split; [reflexivity|]. split; [discriminate|].
  intros [H|H]; [discriminate H|exact H].
Qed.

(** C3 as amended, on a callback without cookies that carries the state
    of the login, and on a request whose cookies cannot be read. *)
Lemma callback_cookie_read_fault_witness :
  let s := provider (inl "token") (inl "user") (inl "tracks") in
  let r1 := get [("state", "ABC123"); ("code", "XYZ")] [] in
  let r2 := getBadCookies [("state", "ABC123"); ("code", "XYZ")]
                          (errorString "malformed cookie header") in
  let o1 := handleAuthCallback (fun _ => inl "{}") (fun t : string => inl t) s r1
              (start [] noEntropy) in
  let o2 := handleAuthCallback (fun _ => inl "{}") (fun t : string => inl t) s r2
              (start [] noEntropy) in
  (http.FormValue r1 "error" = EmptyString /\
   http.Request_Cookie r1 stateCookieName = inr ErrNoCookie /\
   callsOf (trace (worldOf o1)) = [] /\
   http.statusOf (w (worldOf o1)) = Some 401 /\
   http.locationOf (w (worldOf o1)) = Some "/") /\
  (http.FormValue r2 "error" = EmptyString /\
   http.Request_Cookie r2 stateCookieName = inr (errorString "malformed cookie header") /\
   callsOf (trace (worldOf o2)) = [] /\
   http.statusOf (w (worldOf o2)) = Some 400 /\
   http.body (w (worldOf o2)) = [http.Text ("malformed cookie header" ++ LF)]).
Proof.
  intros s r1 r2 o1 o2.
  assert (Herr1 : http.FormValue r1 "error" = EmptyString) by reflexivity.
  assert (Hcookie1 : http.Request_Cookie r1 stateCookieName = inr ErrNoCookie)
    by reflexivity.
  assert (Herr2 : http.FormValue r2 "error" = EmptyString) by reflexivity.
  assert (Hcookie2 : http.Request_Cookie r2 stateCookieName
                     = inr (errorString "malformed cookie header")) by reflexivity.
  split.
  - destruct (callback_cookie_read_fault string string string
                (fun _ => inl "{}") (fun t : string => inl t) s r1 [] noEntropy
                ErrNoCookie Herr1 Hcookie1)
      as (_ & Hcalls & Hmissing & _).
    destruct (Hmissing eq_refl) as (Hst & Hloc).
    repeat apply conj; assumption.
  - destruct (callback_cookie_read_fault string string string
                (fun _ => inl "{}") (fun t : string => inl t) s r2 [] noEntropy
                (errorString "malformed cookie header") Herr2 Hcookie2)
      as (_ & Hcalls & _ & Hother).
    assert (Hne : errorString "malformed cookie header" <> ErrNoCookie) by discriminate.
    destruct (Hother Hne) as (_ & _ & Hst & Hbody).
    repeat apply conj; assumption.
Defined.

(** The claim C3 as stated fails: without a state cookie but with a
    provider error the handler takes the denial branch. *)
Lemma callback_missing_cookie_after_provider_error :
  let r := get [("error", "access_denied"); ("state", "ABC123")] [] in
  let o := handleAuthCallback (fun _ => inl "{}") (fun t : string => inl t)
             (provider (inl "token") (inl "user") (inl "tracks")) r
             (start [] noEntropy) in
  http.Request_Cookie r stateCookieName = inr ErrNoCookie /\
  http.statusOf (w (worldOf o)) = Some http.StatusTemporaryRedirect /\
  http.statusOf (w (worldOf o)) <> Some http.StatusUnauthorized.
Proof.
  vm_compute. repeat split; discriminate.
Qed.

(** C9 on the callback without cookies. *)
Lemma callback_missing_cookie_falls_through_witness :
  let r := get [("state", "ABC123"); ("code", "XYZ")] [] in
  let o := handleAuthCallback (fun _ => inl "{}") (fun t : string => inl t)
             (provider (inl "token") (inl "user") (inl "tracks")) r
             (start [] noEntropy) in
  http.FormValue r "error" = EmptyString /\
  http.Request_Cookie r stateCookieName = inr ErrNoCookie /\
  http.statusOf (w (worldOf o)) = Some 401 /\
  http.superfluous (w (worldOf o)) = [400] /\
  http.body (w (worldOf o)) =
    [http.RedirectNote "/" 401; http.Text ("http: named cookie not present" ++ LF)].
Proof.
  intros r o.
  assert (Herr : http.FormValue r "error" = EmptyString) by reflexivity.
  assert (Hcookie : http.Request_Cookie r stateCookieName = inr ErrNoCookie)
    by reflexivity.
  destruct (callback_missing_cookie_falls_through string string string
              (fun _ => inl "{}") (fun t : string => inl t)
              (provider (inl "token") (inl "user") (inl "tracks")) r [] noEntropy
              Herr Hcookie)
    as (_ & _ & Hst & _ & Hsup & _ & Hbody).
  specialize (Hbody eq_refl eq_refl).
  repeat apply conj; assumption.
Defined.

(** The claim C4 as stated fails: a state mismatch and a missing state
    cookie are answered with status 401, not 307. *)
Lemma callback_mismatch_and_missing_cookie_are_401 :
  let s := provider (inl "token") (inl "user") (inl "tracks") in
  let mismatch := get [("state", "WRONG"); ("code", "XYZ")] [oauthStateABC123] in
  let missing := get [("state", "ABC123"); ("code", "XYZ")] [] in
  let status r :=
    http.statusOf (w (worldOf (handleAuthCallback (fun _ => inl "{}")
                                 (fun t : string => inl t) s r (start [] noEntropy)))) in
  status mismatch = Some 401 /\ status mismatch <> Some 307 /\
  status missing = Some 401 /\ status missing <> Some 307.
Proof.
  vm_compute. repeat split; discriminate.
Qed.

(** C6 on the login scenario with a provider that fails at the token
    exchange, at the profile fetch and at the saved-tracks fetch. *)
Lemma callback_steps_sequential_witness :
  let r := get [("state", "ABC123"); ("code", "XYZ")] [oauthStateABC123] in
  let run s := worldOf (handleAuthCallback (fun _ => inl "{}") (fun t : string => inl t)
                          s r (start [] noEntropy)) in
  let s1 := provider (inr (errorString "invalid_grant")) (inl "user") (inl "tracks") in
  let s2 := provider (inl "token") (inr (errorString "profile: 401")) (inl "tracks") in
  let s3 := provider (inl "token") (inl "user") (inr (errorString "tracks: 502")) in
  (http.FormValue r "error" = EmptyString /\
   http.Request_Cookie r stateCookieName = inl oauthStateABC123 /\
   http.FormValue r "state" = http.Value oauthStateABC123) /\
  (callsOf (trace (run s1)) = [CallExchange "XYZ"] /\
   http.statusOf (w (run s1)) = Some 400 /\
   http.body (w (run s1)) = [http.Text ("invalid_grant" ++ LF)]) /\
  (callsOf (trace (run s2)) = [CallExchange "XYZ"; CallGetUserProfile "token"] /\
   http.statusOf (w (run s2)) = Some 400 /\
   http.body (w (run s2)) = [http.Text ("profile: 401" ++ LF)]) /\
  (callsOf (trace (run s3)) =
     [CallExchange "XYZ"; CallGetUserProfile "token";
      CallGetUserSavedTracks "token" (savedTracksParams)] /\
   http.statusOf (w (run s3)) = Some 400 /\
   http.body (w (run s3)) = [http.Text ("tracks: 502" ++ LF)]).
Proof.
  intros r run s1 s2 s3.
  assert (Herr : http.FormValue r "error" = EmptyString) by reflexivity.
  assert (Hcookie : http.Request_Cookie r stateCookieName = inl oauthStateABC123)
    by reflexivity.
  assert (Hstate : http.FormValue r "state" = http.Value oauthStateABC123)
    by reflexivity.
  pose proof (fun s =>
    proj2 (proj2 (callback_steps_sequential string string string
                    (fun _ => inl "{}") (fun t : string => inl t) s r [] noEntropy)
             oauthStateABC123 Herr Hcookie Hstate)) as H.
  pose proof (H s1) as H1. pose proof (H s2) as H2. pose proof (H s3) as H3.
  cbn in H1, H2, H3.
  destruct H1 as (C1 & S1 & B1). destruct H2 as (C2 & S2 & B2).
  destruct H3 as (C3 & S3 & B3).
  repeat apply conj; assumption.
Defined.

(** C8 on the login scenario with a provider that answers every call. *)
Lemma callback_success_only_logs_witness :
  let r := get [("state", "ABC123"); ("code", "XYZ")] [oauthStateABC123] in
  let s := provider (inl "token") (inl "user") (inl "tracks") in
  let o := handleAuthCallback (fun _ => inl "{}") (fun t : string => inl t) s r
             (start [] noEntropy) in
  (http.FormValue r "error" = EmptyString /\
   http.Request_Cookie r stateCookieName = inl oauthStateABC123 /\
   http.FormValue r "state" = http.Value oauthStateABC123) /\
  callsOf (trace (worldOf o)) =
    [CallExchange "XYZ"; CallGetUserProfile "token";
     CallGetUserSavedTracks "token" (mkQParams (Some 50) (Some 0) (Some "us"))] /\
  w (worldOf o) = http.newResponseWriter [] /\
  http.statusOf (w (worldOf o)) = None /\
  http.body (w (worldOf o)) = [] /\
  In (Printed FmtPrint [VStr "tracks"]) (trace (worldOf o)).
Proof.
  intros r s o.
  assert (Herr : http.FormValue r "error" = EmptyString) by reflexivity.
  assert (Hcookie : http.Request_Cookie r stateCookieName = inl oauthStateABC123)
    by reflexivity.
  assert (Hstate : http.FormValue r "state" = http.Value oauthStateABC123)
    by reflexivity.
  destruct (proj2 (callback_success_only_logs string string string
                     (fun _ => inl "{}") (fun t : string => inl t) s r [] noEntropy)
              oauthStateABC123 "token" "user" "tracks"
              Herr Hcookie Hstate eq_refl eq_refl eq_refl)
    as (_ & Hcalls & Hw & Hst & Hbody & _ & _ & Hprinted).
  repeat apply conj; assumption.
Defined.

(** C5 as amended, on an entropy source that delivers 32 bytes 0xff. *)
Lemma genRandState_returns_std_base64_witness :
  let W := @start string string [] (constantEntropy xff) in
  exists W',
    genRandState W = Returned "//////////////////////////////////////////8=" W' /\
    String.length "//////////////////////////////////////////8=" = 44%nat /\
    url.url_safe "//////////////////////////////////////////8=" = false.
Proof.
  intros W.
  eexists.
  assert (Hret : genRandState W
                 = Returned "//////////////////////////////////////////8="
                     (mkWorld (http.newResponseWriter [])
                        [Printed LogPrintln
                           [VStr "generating rand bytes"]]
                        (constantEntropy xff) 1))
    by reflexivity.
  destruct (genRandState_returns_std_base64 string string W _ _ Hret)
    as (bytes & _ & _ & _ & Hlen & _ & _ & Hunsafe).
  repeat apply conj; [exact Hret | exact Hlen | exact Hunsafe].
Defined.

(** The claim C5 as stated fails: the generator returns a string with
    [+], [/] and [=], each of which must be escaped in a URL. *)
Lemma genRandState_result_needs_escaping :
  let e : Entropy := fun _ _ => inl (xfb :: repeat xff 31) in
  let state := "+/////////////////////////////////////////8=" in
  resultOf (@genRandState string string (start [] e)) = Some state /\
  url.url_safe state = false /\
  In "+"%char (list_ascii_of_string state) /\
  In "/"%char (list_ascii_of_string state) /\
  url.unreserved "+" = false /\ url.unreserved "/" = false /\ url.unreserved "=" = false.
Proof.
  vm_compute. repeat apply conj; try reflexivity.
  - left. reflexivity.
  - right. left. reflexivity.
Qed.



(** ** Further properties on concrete inputs *)

Arguments entropy {Token User} _.
Arguments NewServer {Token User SavedTracks} env_LoadTOMLFile spotifyapi_NewClient fileName _.
Arguments Start {Token User SavedTracks} ListenAndServe s _.
Arguments s_cfg {Token User SavedTracks} _.
Arguments s_client {Token User SavedTracks} _.
Arguments s_router {Token User SavedTracks} _.
Arguments s_httpServer {Token User SavedTracks} _.
Arguments mkServerStruct {Token User SavedTracks} s_cfg s_client s_router s_httpServer.
Arguments client {Token User SavedTracks} _.
Arguments Up {A} a log.
Arguments FatalExit {A} log.
Arguments Panic {A} msg log.
Arguments Config {Token User SavedTracks} _.
Arguments Exchange {Token} _ _.
Arguments GetUserProfileRequest {Token User SavedTracks} _ _.
Arguments GetUserSavedTracks {Token User SavedTracks} _ _ _.

(** X7.  The response and the provider calls of the callback do not depend
    on the JSON encoders: a failure to encode the request headers or the
    track page for the log changes neither what the browser receives
    nor what is asked of the provider. *)
Theorem callback_response_ignores_json_failures
  (Token User SavedTracks : Type)
  (json1 json2 : http.Header -> string + error)
  (indent1 indent2 : SavedTracks -> string + error)
  (s : Server Token User SavedTracks) (r : http.Request)
  (h : http.Header) (e : Entropy) :
  let o1 := handleAuthCallback json1 indent1 s r (start h e) in
  let o2 := handleAuthCallback json2 indent2 s r (start h e) in
  returned o1 = returned o2 /\
  w (worldOf o1) = w (worldOf o2) /\
  callsOf (trace (worldOf o1)) = callsOf (trace (worldOf o2)).
Proof.
  intros o1 o2.
  pose proof (callback_rejecting Token User SavedTracks json1 indent1 s r h e) as Hrej1.
  pose proof (callback_rejecting Token User SavedTracks json2 indent2 s r h e) as Hrej2.
  cbv zeta in Hrej1, Hrej2. fold o1 in Hrej1. fold o2 in Hrej2.
  destruct (String.eqb (http.FormValue r "error") EmptyString) eqn:Herr.
  2:{ apply String.eqb_neq in Herr.
      destruct Hrej1 as (Hdenied1 & _). destruct Hrej2 as (Hdenied2 & _).
      destruct (Hdenied1 Herr) as (-> & -> & ->).
      destruct (Hdenied2 Herr) as (-> & -> & ->). repeat split. }
  apply String.eqb_eq in Herr.
  destruct (http.Request_Cookie r stateCookieName) as [c|err] eqn:Hcookie.
  2:{ destruct Hrej1 as (_ & Hfault1 & _). destruct Hrej2 as (_ & Hfault2 & _).
      destruct (Hfault1 Herr err eq_refl) as (-> & -> & ->).
      destruct (Hfault2 Herr err eq_refl) as (-> & -> & ->). repeat split. }
  destruct (String.eqb (http.FormValue r "state") (http.Value c)) eqn:Hstate.
  2:{ apply String.eqb_neq in Hstate.
      destruct Hrej1 as (_ & _ & Hmismatch1). destruct Hrej2 as (_ & _ & Hmismatch2).
      destruct (Hmismatch1 Herr c eq_refl Hstate) as (-> & -> & ->).
      destruct (Hmismatch2 Herr c eq_refl Hstate) as (-> & -> & ->). repeat split. }
  clear Hrej1 Hrej2.
  apply String.eqb_eq in Hstate.
  pose proof (callback_exchanging Token User SavedTracks json1 indent1 s r h e c
                Herr Hcookie Hstate) as [R1 H1].
  pose proof (callback_exchanging Token User SavedTracks json2 indent2 s r h e c
                Herr Hcookie Hstate) as [R2 H2].
  cbv zeta in H1, H2. fold o1 in R1, H1. fold o2 in R2, H2.
  rewrite R1, R2. split; [reflexivity|].
  destruct (Exchange (Config (client s)) (http.FormValue r "code")) as [token|err].
  2:{ destruct H1 as [-> ->]. destruct H2 as [-> ->]. split; reflexivity. }
  destruct (GetUserProfileRequest (client s) token) as [user|err].
  2:{ destruct H1 as [-> ->]. destruct H2 as [-> ->]. split; reflexivity. }
  destruct H1 as (_ & -> & H1). destruct H2 as (_ & -> & H2).
  split; [|reflexivity].
  destruct (GetUserSavedTracks (client s) token savedTracksParams) as [tracks|err].
  - destruct H1 as [-> _]. destruct H2 as [-> _]. reflexivity.
  - rewrite H1, H2. reflexivity.
Qed.

(** The generator on an entropy source of 0xff bytes and on one of
    zero bytes. *)
Lemma genRandState_state_iff_bytes_witness :
  let W1 := @start string string [] (constantEntropy xff) in
  let W2 := @start string string [] (constantEntropy x00) in
  resultOf (genRandState W1) = Some "//////////////////////////////////////////8=" /\
  resultOf (genRandState W2) = Some "AAAAAAAAAAAAAAAAAAAAAAAAAAAAAAAAAAAAAAAAAAA=" /\
  ("//////////////////////////////////////////8="
   = "AAAAAAAAAAAAAAAAAAAAAAAAAAAAAAAAAAAAAAAAAAA="
   <-> fill (make 32) (repeat xff 32) = fill (make 32) (repeat x00 32)).
Proof.
  intros W1 W2.
  assert (H1 : entropy W1 (reads W1) 32%nat = inl (repeat xff 32)) by reflexivity.
  assert (H2 : entropy W2 (reads W2) 32%nat = inl (repeat x00 32)) by reflexivity.
  assert (R1 : genRandState W1
               = Returned "//////////////////////////////////////////8="
                   (mkWorld (http.newResponseWriter [])
                      [Printed LogPrintln [VStr "generating rand bytes"]]
                      (constantEntropy xff) 1)) by reflexivity.
  assert (R2 : genRandState W2
               = Returned "AAAAAAAAAAAAAAAAAAAAAAAAAAAAAAAAAAAAAAAAAAA="
                   (mkWorld (http.newResponseWriter [])
                      [Printed LogPrintln [VStr "generating rand bytes"]]
                      (constantEntropy x00) 1)) by reflexivity.
  pose proof (genRandState_state_iff_bytes string string W1 W2 _ _ _ _ _ _ H1 H2 R1 R2)
    as Hiff.
  split; [rewrite R1; reflexivity|]. split; [rewrite R2; reflexivity|]. exact Hiff.
Defined.

(** [GET /auth] without entropy. *)
Lemma auth_exits_without_entropy_witness :
  let s := provider (inl "token") (inl "user") (inl "tracks") in
  let o := handleAuth 300 false s (get [] []) (start [] noEntropy) in
  noEntropy 0%nat 32%nat = inr (errorString "entropy unavailable") /\
  returned o = false /\ w (worldOf o) = http.newResponseWriter [].
Proof.
  intros s o.
  assert (H : noEntropy 0%nat 32%nat = inr (errorString "entropy unavailable"))
    by reflexivity.
  destruct (auth_exits_without_entropy string string string 300 false s (get [] [])
              [] noEntropy _ H) as [Hret Hw].
  repeat apply conj; assumption.
Defined.

(** [GET /auth] from a browser that holds a state cookie and from one
    that does not. *)
Lemma auth_response_ignores_request_cookies_witness :
  let s := provider (inl "token") (inl "user") (inl "tracks") in
  let r1 := get [] [oauthStateABC123] in
  let r2 := get [("again", "1")] [] in
  let o1 := handleAuth 300 false s r1 (start [] (constantEntropy x00)) in
  let o2 := handleAuth 300 false s r2 (start [] (constantEntropy x00)) in
  http.Method r1 = http.Method r2 /\
  returned o1 = returned o2 /\ w (worldOf o1) = w (worldOf o2).
Proof.
  intros s r1 r2 o1 o2.
  assert (Hm : http.Method r1 = http.Method r2) by reflexivity.
  destruct (auth_response_ignores_request_cookies string string string 300 false
              s r1 r2 [] (constantEntropy x00) Hm) as [Hret Hw].
  repeat apply conj; assumption.
Defined.

(** One login and its callback. *)
Lemma login_callback_round_trip_witness :
  let s := provider (inl "token") (inl "user") (inl "tracks") in
  let state := "AAAAAAAAAAAAAAAAAAAAAAAAAAAAAAAAAAAAAAAAAAA=" in
  let login := handleAuth 300 false s (get [] []) (start [] (constantEntropy x00)) in
  let r' := get [("code", "XYZ"); ("state", state)]
                (http.cookiesOf (w (worldOf login))) in
  let o := handleAuthCallback (fun _ => inl "{}") (fun t : string => inl t) s r'
             (start [] noEntropy) in
  (constantEntropy x00 0%nat 32%nat = inl (repeat x00 32) /\
   http.FormValue r' "error" = EmptyString /\
   http.FormValue r' "state" = state) /\
  http.locationOf (w (worldOf login))
    = Some ("https://accounts.spotify.com/authorize?state=" ++ state) /\
  exists rest, callsOf (trace (worldOf o)) = CallExchange "XYZ" :: rest.
Proof.
  intros s state login r' o.
  assert (Hdata : constantEntropy x00 0%nat 32%nat = inl (repeat x00 32)) by reflexivity.
  assert (Herr : http.FormValue r' "error" = EmptyString) by reflexivity.
  assert (Hstate : http.FormValue r' "state" = state) by reflexivity.
  destruct (login_callback_round_trip string string string
              (fun _ => inl "{}") (fun t : string => inl t) 300 false s
              (get [] []) r' [] [] (constantEntropy x00) noEntropy (repeat x00 32)
              Hdata Herr eq_refl Hstate) as [Hloc Hcalls].
  repeat apply conj; assumption.
Defined.


(** Startup from a configuration with and without a [spotify] entry,
    and from a file that cannot be loaded. *)
Lemma NewServer_returns_configured_witness :
  let entry := env.mkOauth2Provider "id" "secret" "http://localhost:8080/auth/callback" in
  let cfg := env.mkTomlConfig [("github", entry); ("spotify", entry)]
                              (env.mkServerTable "8080") in
  let newClient := fun id secret redirect : string =>
    client (@provider string string string (inl (id ++ secret ++ redirect))
                      (inl "user") (inl "tracks")) in
  exists s,
    NewServer (fun _ => inl cfg) newClient "config.toml" [] = Up s [] /\
    s_cfg s = Some cfg /\
    s_client s = Some (newClient "id" "secret" "http://localhost:8080/auth/callback") /\
    s_httpServer s = None.
Proof.
  intros entry cfg newClient.
  eexists. split; [reflexivity|].
  destruct (NewServer_returns_configured string string string
              (fun _ => inl cfg) newClient "config.toml" [] [] _ eq_refl)
    as (cfg' & p & Hload & Hidx & Hcfg & Hclient & _ & _ & Hsrv & _).
  injection Hload as <-. cbn in Hidx. injection Hidx as <-.
  repeat apply conj; assumption.
Defined.

Lemma NewServer_failures_witness :
  let entry := env.mkOauth2Provider "id" "secret" "http://localhost:8080/auth/callback" in
  let cfg := env.mkTomlConfig [("github", entry); ("Spotify", entry)]
                              (env.mkServerTable "8080") in
  let newClient := fun id secret redirect : string =>
    client (@provider string string string (inl (id ++ secret ++ redirect))
                      (inl "user") (inl "tracks")) in
  NewServer (fun _ => inr (errorString "no such file")) newClient "config.toml" []
    = FatalExit [Fatal "Error loading .toml file into struct config"] /\
  NewServer (fun _ => inl cfg) newClient "config.toml" []
    = Panic "Spotify env properties not found in config" [].
Proof.
  intros entry cfg newClient. split.
  - apply (proj1 (NewServer_failures string string string
                    (fun _ => inr (errorString "no such file")) newClient
                    "config.toml" []) (errorString "no such file") eq_refl).
  - apply (proj1 (proj2 (NewServer_failures string string string
                           (fun _ => inl cfg) newClient "config.toml" []))
             cfg eq_refl eq_refl).
Defined.

Lemma Start_after_NewServer_witness :
  let entry := env.mkOauth2Provider "id" "secret" "http://localhost:8080/auth/callback" in
  let cfg := env.mkTomlConfig [("spotify", entry)] (env.mkServerTable "8080") in
  let newClient := fun id secret redirect : string =>
    client (@provider string string string (inl (id ++ secret ++ redirect))
                      (inl "user") (inl "tracks")) in
  let closed := fun _ : http_Server => ErrServerClosed in
  let inUse := fun _ : http_Server => otherServeError (errorString "address in use") in
  let router :=
    [Use ["Logger"; "StripSlashes"; "RealIP"; "Recoverer"; "cors.Handler"];
     Get "/" indexHandler; Get "/ping" handlePing; Get "/" handleHome;
     FileServer "/templates"; Get "/auth" authHandler;
     Get "/auth/callback" authCallbackHandler;
     Get "/logout/{provider}" logoutHandler] in
  let s := mkServerStruct (Some cfg)
             (Some (newClient "id" "secret" "http://localhost:8080/auth/callback"))
             (Some router) None in
  let srv := mkHttpServer ":8080" (Some router) 10000000000 10000000000 in
  NewServer (fun _ => inl cfg) newClient "config.toml" [] = Up s [] /\
  Start closed s []
    = Up (mkServerStruct (s_cfg s) (s_client s) (s_router s) (Some srv))
         [Printf ("server listening on %s" ++ LF) "8080"; Println "Server closed!"] /\
  Start inUse s []
    = FatalExit [Printf ("server listening on %s" ++ LF) "8080";
                 Fatalf "ListenAndServe err: %s"
                        (otherServeError (errorString "address in use"))].
Proof.
  intros entry cfg newClient closed inUse router s srv.
  assert (Hnew : NewServer (fun _ => inl cfg) newClient "config.toml" [] = Up s [])
    by reflexivity.
  destruct (Start_after_NewServer string string string (fun _ => inl cfg) newClient
              closed "config.toml" [] [] s Hnew) as (cfg1 & Hcfg1 & Hclosed).
  destruct (Start_after_NewServer string string string (fun _ => inl cfg) newClient
              inUse "config.toml" [] [] s Hnew) as (cfg2 & Hcfg2 & HinUse).
  injection Hcfg1 as <-. injection Hcfg2 as <-.
  cbn in Hclosed, HinUse.
  repeat apply conj; assumption.
Defined.
